(** * The redis cache-synchronisation client of blocky ([redis/redis.go])

    A shallow embedding of the client: the namespacing of store keys, the
    TTL policy, the conversion of stored and broadcast messages, the two
    branches of the coordinating loop started by [startup], the publish
    entry point and the bulk loader, followed by the properties of the
    specification that concern them.

    Conventions.
    - A Go [string] is a [string] (a sequence of 8-bit characters), a
      [[]byte] is a [list byte]; the conversions [[]byte(s)] and
      [string(b)] are [list_byte_of_string] and [string_of_list_byte].
    - [uint32] and [int64] values are integers in [Z]; where Go's
      arithmetic can wrap around, the wrap is written out.
    - A [time.Duration] is its [int64] count of nanoseconds.
    - A Go [error] result is the [None] of an [option].
    - [*dns.Msg] values handed to the client by its caller are addresses
      in a heap of messages, so that writes through the pointer are seen
      by the caller. *)

From Stdlib Require Import ZArith Lia.
From Stdlib Require Import Strings.Byte.
From Stdlib Require SpecFloat.
From stdpp Require Import base option list strings gmap.

Local Open Scope Z_scope.

Abbreviation bytes := (list byte).

(** ** Constants of the package *)

Definition CacheChannelName : string := "blocky_sync".
Definition CacheStorePrefix : string := "blocky:cache:".
Definition chanCap : nat := 1000.
Definition cacheReason : string := "EXTERNAL_CACHE".

(** [time.Second], in nanoseconds. *)
Definition Second : Z := 1000000000.
Definition defaultCacheTime : Z := 1 * Second.

(** ** Machine integers *)

(** Two's-complement reduction to [int64], the range of [time.Duration]. *)
Definition wrap64 (z : Z) : Z := (z + 2 ^ 63) mod 2 ^ 64 - 2 ^ 63.

Definition is_uint32 (z : Z) : Prop := 0 <= z < 2 ^ 32.

(** ** Floating point

    A [float64] is a value of the IEEE 754 binary64 format, with the
    operations of the standard library's specification of that format,
    which round to nearest, ties to even, as Go's do. *)
Definition float64 : Type := SpecFloat.spec_float.

(** [float64(z)] for an integer [z]. *)
Definition float64_of_int (z : Z) : float64 :=
  SpecFloat.binary_normalize 53 1024 z 0 false.

(** The integer part of a finite [float64], the fraction discarded;
    [None] for an infinity or a NaN. *)
Definition float64_trunc (x : float64) : option Z :=
  match x with
  | SpecFloat.S754_zero _ => Some 0
  | SpecFloat.S754_finite s m e =>
      Some (SpecFloat.cond_Zopp s
              match e with
              | Zneg d => Zpos m / 2 ^ Zpos d
              | _ => Zpos m * 2 ^ e
              end)
  | _ => None
  end.

(** [d.Seconds()] of [time.Duration]:
    [sec := d / Second; nsec := d % Second;
     return float64(sec) + float64(nsec)/1e9]. *)
Definition Duration_Seconds (d : Z) : float64 :=
  SpecFloat.SFadd 53 1024 (float64_of_int (Z.quot d Second))
    (SpecFloat.SFdiv 53 1024 (float64_of_int (Z.rem d Second))
       (float64_of_int 1000000000)).

(** ** Strings: [strings.HasPrefix], [strings.TrimPrefix], [fmt.Sprintf] *)

(** [len(s) >= len(prefix) && s[0:len(prefix)] == prefix] *)
Definition HasPrefix (s prefix : string) : bool :=
  (String.length prefix <=? String.length s)%nat
  && String.eqb (String.substring 0 (String.length prefix) s) prefix.

(** [if HasPrefix(s, prefix) { return s[len(prefix):] }; return s] *)
Definition TrimPrefix (s prefix : string) : string :=
  if HasPrefix s prefix
  then String.substring (String.length prefix)
                 (String.length s - String.length prefix) s
  else s.

(** [fmt.Sprintf("%s%s", a, b)] *)
Definition Sprintf_ss (a b : string) : string := a +:+ b.

(** [prefixKey] with [CacheStorePrefix] *)
Definition prefixKey (key : string) : string :=
  Sprintf_ss CacheStorePrefix key.

(** [cleanKey] trims the [CacheStorePrefix] prefix *)
Definition cleanKey (key : string) : string :=
  TrimPrefix key CacheStorePrefix.

(** ** [bytes.Compare] *)

#[global] Instance byte_eq_dec : EqDecision byte := Byte.byte_eq_dec.

Fixpoint bytes_Compare (a b : bytes) : Z :=
  match a, b with
  | [], [] => 0
  | [], _ :: _ => -1
  | _ :: _, [] => 1
  | x :: a', y :: b' =>
      match N.compare (Byte.to_N x) (Byte.to_N y) with
      | Lt => -1
      | Gt => 1
      | Eq => bytes_Compare a' b'
      end
  end.

(** ** DNS messages ([github.com/miekg/dns])

    The structures are those of the library.  A resource record is an
    interface value there: a header followed by data that depends on the
    record type, kept here as the bytes of its RDATA. *)

Module dns.

Record RR_Header := mkRR_Header {
  Name : string;
  Rrtype : Z;      (* uint16 *)
  Class : Z;       (* uint16 *)
  Ttl : Z;         (* uint32 *)
  Rdlength : Z     (* uint16, length of the data after the header *)
}.

Record RR := mkRR {
  Header : RR_Header;
  Rdata : bytes
}.

Record Question := mkQuestion {
  Qname : string;
  Qtype : Z;
  Qclass : Z
}.

Record MsgHdr := mkMsgHdr {
  Id : Z;
  Response : bool;
  Opcode : Z;
  Authoritative : bool;
  Truncated : bool;
  RecursionDesired : bool;
  RecursionAvailable : bool;
  Zero : bool;
  AuthenticatedData : bool;
  CheckingDisabled : bool;
  Rcode : Z
}.

Record Msg := mkMsg {
  Hdr : MsgHdr;
  Compress : bool;
  Questions : list Question;
  Answer : list RR;
  Ns : list RR;
  Extra : list RR
}.

(** The zero value [dns.Msg{}]. *)
Definition zeroHdr : MsgHdr :=
  mkMsgHdr 0 false 0 false false false false false false false 0.
Definition zeroMsg : Msg := mkMsg zeroHdr false [] [] [] [].

(** [m.Compress = b] *)
Definition set_Compress (b : bool) (m : Msg) : Msg :=
  mkMsg (Hdr m) b (Questions m) (Answer m) (Ns m) (Extra m).

(** [a.Header().Ttl = t] *)
Definition set_Ttl (t : Z) (a : RR) : RR :=
  let h := Header a in
  mkRR (mkRR_Header (Name h) (Rrtype h) (Class h) t (Rdlength h)) (Rdata a).

(** [m.Answer = rrs] *)
Definition set_Answer (rrs : list RR) (m : Msg) : Msg :=
  mkMsg (Hdr m) (Compress m) (Questions m) rrs (Ns m) (Extra m).

(** [m.Extra = rrs] *)
Definition set_Extra (rrs : list RR) (m : Msg) : Msg :=
  mkMsg (Hdr m) (Compress m) (Questions m) (Answer m) (Ns m) rrs.

(** The TTL of a record, [a.Header().Ttl]. *)
Definition ttl_of (a : RR) : Z := Ttl (Header a).

(** Two records that differ at most in the [Rdlength] of their header,
    which packing recomputes from the data. *)
Definition rr_equiv (a b : RR) : Prop :=
  Name (Header a) = Name (Header b)
  /\ Rrtype (Header a) = Rrtype (Header b)
  /\ Class (Header a) = Class (Header b)
  /\ Ttl (Header a) = Ttl (Header b)
  /\ Rdata a = Rdata b.

End dns.

(** ** TTL policy *)

(** The loop of [getTTL]: the running maximum over the answer section,
    compared as [uint32]. *)
Fixpoint getTTL_loop (ttl : Z) (answer : list dns.RR) : Z :=
  match answer with
  | [] => ttl
  | a :: rest =>
      getTTL_loop (if dns.ttl_of a >? ttl then dns.ttl_of a else ttl) rest
  end.

(** [getTTL] of a dns message, or [defaultCacheTime] if 0.  The receiver
    is not used by the method. *)
Definition getTTL (m : dns.Msg) : Z :=
  let ttl := getTTL_loop 0 (dns.Answer m) in
  if ttl =? 0 then defaultCacheTime
  else wrap64 (ttl * Second).

(** ** Messages of the client *)

(** Address of a [dns.Msg] owned by the caller of the client. *)
Abbreviation loc := nat.

(** [sendBuffer] message *)
Module bufferMessage.
Record t := mk {
  Key : string;
  Message : option loc        (* *dns.Msg, [None] is nil *)
}.
End bufferMessage.

(** redis pubsub message *)
Module redisMessage.
Record t := mk {
  K : string;  (* key *)
  M : bytes;   (* message *)
  C : bytes    (* client *)
}.
End redisMessage.

Module model.
(** Modelled from the spec: [model.ResponseType] is declared in the
    [model] package, outside this package; the spec describes it as the
    response-type marker of a produced event ("served from external
    cache").  Only the marker the redis client sets is listed. *)
Inductive ResponseType := ResponseTypeCACHED.

(** Modelled from the spec: [model.Response], declared in the [model]
    package: a response-type marker, a fixed reason tag and the decoded
    answer.  [Res] points to a message that [convertMessage] has just
    allocated and nobody else holds, so it is kept by value. *)
Record Response := mkResponse {
  Res : dns.Msg;
  Reason : string;
  RType : ResponseType
}.
End model.

(** [CacheChannel] message *)
Module CacheMessage.
Record t := mk {
  Key : string;
  Response : model.Response
}.
End CacheMessage.

(** ** The broker ([github.com/go-redis/redis/v8]) *)

Module redis.

(** A message delivered by a subscription. *)
Record Message := mkMessage {
  Channel : string;
  Pattern : string;
  Payload : string
}.

(** The connection handle [*redis.Client], as the replies of the server
    to the commands the client uses.  [Scan pattern] is the sequence of
    keys the scan iterator yields, [Get] and [TTL] fail with [None], and
    [Publish] and [Set_] tell whether the command succeeded. *)
Record Client := mkClient {
  Scan : string -> list string;
  Get : string -> option string;
  TTL : string -> option Z;
  Publish : string -> bytes -> bool;
  Set_ : string -> bytes -> Z -> bool
}.

(** A write command sent to the server. *)
Inductive Command :=
| CmdPublish (channel : string) (payload : bytes)
| CmdSet (key : string) (value : bytes) (ttl : Z).

End redis.

(** A line written to the logger [c.l]; the error value appended to the
    text by the code is not kept. *)
Inductive LogEntry :=
| LogDebug (text : string)
| LogError (text : string).

(** ** The client *)

Module Client.
(** Client for redis communication.  [config] and [ctx] play no part in
    the behaviour described here.  The logger [l] is the list of lines
    written to it, and a channel is the sequence of the values sent on
    it, oldest first: [sendBuffer] holds the values not yet received by
    the coordinating loop, [CacheChannel] every value sent to the
    consumer.  [issued] is not a field of the Go structure: it records
    the write commands sent through [client], oldest first, each with
    the success of the command. *)
Record t := mk {
  client : redis.Client;
  issued : list (redis.Command * bool);
  l : list LogEntry;
  id : bytes;
  sendBuffer : list bufferMessage.t;
  CacheChannel : list CacheMessage.t
}.

(** [c.l.Debug(...)], [c.l.Error(...)] *)
Definition log (e : LogEntry) (c : t) : t :=
  mk (client c) (issued c) (l c ++ [e]) (id c) (sendBuffer c) (CacheChannel c).

(** [c.sendBuffer <- s], when the buffer has room *)
Definition enqueue (s : bufferMessage.t) (c : t) : t :=
  mk (client c) (issued c) (l c) (id c) (sendBuffer c ++ [s]) (CacheChannel c).

(** The state after a value has been received from [c.sendBuffer] *)
Definition set_sendBuffer (q : list bufferMessage.t) (c : t) : t :=
  mk (client c) (issued c) (l c) (id c) q (CacheChannel c).

(** [c.CacheChannel <- cm] *)
Definition forward (cm : CacheMessage.t) (c : t) : t :=
  mk (client c) (issued c) (l c) (id c) (sendBuffer c) (CacheChannel c ++ [cm]).

(** [c.client.Publish(c.ctx, channel, payload)], the result is dropped *)
Definition do_Publish (channel : string) (payload : bytes) (c : t) : t :=
  mk (client c)
     (issued c ++ [(redis.CmdPublish channel payload,
                    redis.Publish (client c) channel payload)])
     (l c) (id c) (sendBuffer c) (CacheChannel c).

(** [c.client.Set(c.ctx, key, value, ttl)], the result is dropped *)
Definition do_Set (key : string) (value : bytes) (ttl : Z) (c : t) : t :=
  mk (client c)
     (issued c ++ [(redis.CmdSet key value ttl,
                    redis.Set_ (client c) key value ttl)])
     (l c) (id c) (sendBuffer c) (CacheChannel c).
End Client.

(** How a call or a step of the loop ends: it completes, it is suspended
    on a channel operation that cannot proceed, or the goroutine panics
    on an invalid pointer. *)
Inductive Outcome (A : Type) :=
| Done (a : A)
| Blocked
| Panic.
Arguments Done {A} a.
Arguments Blocked {A}.
Arguments Panic {A}.

(** ** The codecs

    [encoding/json] on [redisMessage] and the wire format of
    [miekg/dns] are outside the package; the client is parametrised by
    them.  [Unpack] fills a zero message.  [Pack] gives the packed
    bytes of its receiver or fails, and it writes to its receiver: it
    stores the extended rcode of the message in the TTL of the OPT
    record of the additional section; [Pack_Extra] is the additional
    section of the receiver as [Pack] leaves it, whether it fails or
    not.

    The conversion of a [float64] to [uint32] is Go's where the integer
    part of the value is a [uint32]; where it is not, Go leaves the
    result to the implementation, and [uint32_unrepresentable] is what
    the implementation gives, taken modulo [2^32]. *)
Class Codec := {
  Pack : dns.Msg -> option bytes;
  Pack_Extra : dns.Msg -> list dns.RR;
  Unpack : bytes -> option dns.Msg;
  json_Marshal : redisMessage.t -> option bytes;
  json_Unmarshal : bytes -> option redisMessage.t;
  uint32_unrepresentable : float64 -> Z
}.

Section Redis.
Context `{codec : Codec}.

(** [PublishCache] publish cache to redis async *)
Definition PublishCache (c : Client.t) (key : string) (message : option loc)
  : Outcome Client.t :=
  if (0 <? String.length key)%nat && bool_decide (message <> None) then
    if (length (Client.sendBuffer c) <? chanCap)%nat then
      Done (Client.enqueue (bufferMessage.mk key message) c)
    else Blocked
  else Done c.

(** [uint32(x)] for a [float64]: the integer part when it is a
    [uint32]. *)
Definition float64_to_uint32 (x : float64) : Z :=
  match float64_trunc x with
  | Some v =>
      if (0 <=? v) && (v <? 2 ^ 32) then v
      else uint32_unrepresentable x mod 2 ^ 32
  | None => uint32_unrepresentable x mod 2 ^ 32
  end.

(** [uint32(d.Seconds())] for a duration [d]. *)
Definition Seconds_uint32 (d : Z) : Z :=
  float64_to_uint32 (Duration_Seconds d).

(** The receiver of [Pack] as the call leaves it. *)
Definition after_Pack (m : dns.Msg) : dns.Msg :=
  dns.set_Extra (Pack_Extra m) m.

(** [convertMessage] converts redisMessage to CacheMessage *)
Definition convertMessage (message : redisMessage.t) (ttl : Z)
  : option CacheMessage.t :=
  match Unpack (redisMessage.M message) with
  | Some dns =>
      let dns :=
        if ttl >? 0 then
          dns.set_Answer
            (map (dns.set_Ttl (Seconds_uint32 ttl)) (dns.Answer dns)) dns
        else dns in
      Some (CacheMessage.mk (redisMessage.K message)
              (model.mkResponse dns cacheReason model.ResponseTypeCACHED))
  | None => None
  end.

(** [getResponse] returns model.Response for a key *)
Definition getResponse (c : Client.t) (key : string)
  : Client.t * option CacheMessage.t :=
  let failed := (Client.log (LogError "Conversion error: ") c, None) in
  match redis.Get (Client.client c) key with
  | Some resp =>
      match redis.TTL (Client.client c) key with
      | Some ttl =>
          match convertMessage
                  (redisMessage.mk (cleanKey key)
                     (String.list_byte_of_string resp) [])
                  ttl with
          | Some result => (c, Some result)
          | None => failed
          end
      | None => failed
      end
  | None => failed
  end.

(** One iteration of the scan loop of [GetRedisCache]. *)
Definition GetRedisCache_body (c : Client.t) (key : string) : Client.t :=
  match getResponse c key with
  | (c, Some response) => Client.forward response c
  | (c, None) => Client.log (LogError "GetRedisCache ") c
  end.

(** [GetRedisCache] reads the redis cache and publish it to the channel *)
Definition GetRedisCache (c : Client.t) : Client.t :=
  let c := Client.log (LogDebug "GetRedisCache") c in
  fold_left GetRedisCache_body
            (redis.Scan (Client.client c) (prefixKey "*")) c.

(** The record the bulk load is to yield for a scanned key, stated on
    the broker rather than on the code: the value and the remaining TTL
    of the key are read, the value unpacks, and the answer records are
    restamped when the remaining TTL is positive.  [None] when a read
    fails or the value does not unpack. *)
Definition stored_record (rdb : redis.Client) (key : string)
  : option CacheMessage.t :=
  match redis.Get rdb key, redis.TTL rdb key with
  | Some resp, Some ttl =>
      match Unpack (String.list_byte_of_string resp) with
      | Some m =>
          Some (CacheMessage.mk (cleanKey key)
                  (model.mkResponse
                     (if ttl >? 0 then
                        dns.set_Answer
                          (map (dns.set_Ttl (Seconds_uint32 ttl))
                             (dns.Answer m)) m
                      else m)
                     cacheReason model.ResponseTypeCACHED))
      | None => None
      end
  | _, _ => None
  end.

(** The first case of the loop of [startup]: a message was received
    from the subscription. *)
Definition startup_recv (c : Client.t) (msg : option redis.Message)
  : Client.t :=
  let c := Client.log (LogDebug "Received message: ") c in
  match msg with
  | Some msg =>
      if (0 <? String.length (redis.Payload msg))%nat then
        match json_Unmarshal
                (String.list_byte_of_string (redis.Payload msg)) with
        | Some rm =>
            if negb (bytes_Compare (redisMessage.C rm) (Client.id c) =? 0) then
              match convertMessage rm 0 with
              | Some cm => Client.forward cm c
              | None => c
              end
            else c
        | None => Client.log (LogError "Conversion error: ") c
        end
      else c
  | None => c
  end.

(** The second case of the loop of [startup]: [s] was received from
    [c.sendBuffer].  The write to [origRes.Compress] goes through the
    pointer of the request: the goroutine panics when it is nil, and a
    pointer to no live message does not occur in Go.  [origRes.Pack()]
    is called on the caller's message too, which is left in the heap as
    [Pack] leaves it, and [getTTL] reads it after that call. *)
Definition startup_send (h : gmap loc dns.Msg) (c : Client.t)
    (s : bufferMessage.t) : Outcome (gmap loc dns.Msg * Client.t) :=
  match bufferMessage.Message s with
  | None => Panic
  | Some p =>
      match h !! p with
      | None => Panic
      | Some m =>
          let origRes := dns.set_Compress true m in
          let packed := Pack origRes in
          let origRes := after_Pack origRes in
          let h := <[p := origRes]> h in
          match packed with
          | Some binRes =>
              let c :=
                match json_Marshal
                        (redisMessage.mk (bufferMessage.Key s) binRes
                           (Client.id c)) with
                | Some binMsg => Client.do_Publish CacheChannelName binMsg c
                | None => c
                end in
              Done (h, Client.do_Set (prefixKey (bufferMessage.Key s)) binRes
                         (getTTL origRes) c)
          | None => Done (h, c)
          end
      end
  end.

(** What the [select] of the loop finds ready. *)
Inductive Ready :=
| FromSubscription (msg : option redis.Message)
| FromSendBuffer.

(** One iteration of the loop of [startup]. *)
Definition startup_select (h : gmap loc dns.Msg) (c : Client.t) (r : Ready)
  : Outcome (gmap loc dns.Msg * Client.t) :=
  match r with
  | FromSubscription msg => Done (h, startup_recv c msg)
  | FromSendBuffer =>
      match Client.sendBuffer c with
      | [] => Blocked
      | s :: rest => startup_send h (Client.set_sendBuffer rest c) s
      end
  end.

(** The loop of [startup] over a sequence of ready cases; it stops at
    the first iteration that does not complete. *)
Fixpoint startup_loop (h : gmap loc dns.Msg) (c : Client.t) (rs : list Ready)
  : Outcome (gmap loc dns.Msg * Client.t) :=
  match rs with
  | [] => Done (h, c)
  | r :: rs =>
      match startup_select h c r with
      | Done (h, c) => startup_loop h c rs
      | Blocked => Blocked
      | Panic => Panic
      end
  end.

End Redis.

(** ** Well-formed states

    Go's pointers are nil or point to a live object.  A request is
    valid in a heap when its message pointer is not nil and the heap
    holds a message at that address; [PublishCache] is the only sender
    on [sendBuffer] and refuses nil. *)
Definition valid_request (h : gmap loc dns.Msg) (s : bufferMessage.t) : Prop :=
  exists p, bufferMessage.Message s = Some p /\ is_Some (h !! p).

(** ** A reference codec

    A small lossless instance of [Codec], on which the client can be run
    on concrete inputs.  A field is written byte by byte, each byte
    after a [x01] marker, and closed by [x00]; an integer is a sign byte
    followed by as many bytes as its magnitude.  A DNS message is the
    sequence of its answer records, five fields each (name, type, class,
    TTL, data); an envelope is the three fields of [redisMessage]. *)

Fixpoint enc_field (f : bytes) : bytes :=
  match f with
  | [] => [x00]
  | b :: f => x01 :: b :: enc_field f
  end.

Fixpoint dec_fields (w : bytes) : option (list bytes) :=
  match w with
  | [] => Some []
  | x00 :: w =>
      match dec_fields w with
      | Some fs => Some ([] :: fs)
      | None => None
      end
  | x01 :: b :: w =>
      match dec_fields w with
      | Some (f :: fs) => Some ((b :: f) :: fs)
      | _ => None
      end
  | _ => None
  end.

Definition enc_Z (z : Z) : bytes :=
  (if z <? 0 then x01 else x00) :: repeat x02 (Z.abs_nat z).

Definition dec_Z (f : bytes) : option Z :=
  match f with
  | [] => None
  | s :: r =>
      Some (if Byte.eqb s x01 then - Z.of_nat (length r)
            else Z.of_nat (length r))
  end.

Definition enc_rr (a : dns.RR) : bytes :=
  let h := dns.Header a in
  enc_field (String.list_byte_of_string (dns.Name h))
  ++ enc_field (enc_Z (dns.Rrtype h))
  ++ enc_field (enc_Z (dns.Class h))
  ++ enc_field (enc_Z (dns.Ttl h))
  ++ enc_field (dns.Rdata a).

Fixpoint enc_rrs (rrs : list dns.RR) : bytes :=
  match rrs with
  | [] => []
  | a :: rrs => enc_rr a ++ enc_rrs rrs
  end.

Fixpoint dec_rrs (fs : list bytes) : option (list dns.RR) :=
  match fs with
  | [] => Some []
  | n :: t :: c :: l :: d :: fs =>
      match dec_Z t, dec_Z c, dec_Z l, dec_rrs fs with
      | Some t, Some c, Some l, Some rrs =>
          Some (dns.mkRR
                  (dns.mkRR_Header (String.string_of_list_byte n) t c l
                     (Z.of_nat (length d))) d
                :: rrs)
      | _, _, _, _ => None
      end
  | _ => None
  end.

(** The fields of a record, and the record read back from them. *)
Definition rr_fields (a : dns.RR) : list bytes :=
  let h := dns.Header a in
  [String.list_byte_of_string (dns.Name h); enc_Z (dns.Rrtype h);
   enc_Z (dns.Class h); enc_Z (dns.Ttl h); dns.Rdata a].

Definition rr_read (a : dns.RR) : dns.RR :=
  let h := dns.Header a in
  dns.mkRR (dns.mkRR_Header (dns.Name h) (dns.Rrtype h) (dns.Class h)
              (dns.Ttl h) (Z.of_nat (length (dns.Rdata a))))
           (dns.Rdata a).

Definition sample_Pack (m : dns.Msg) : option bytes :=
  Some (enc_rrs (dns.Answer m)).

(** The write of the reference [Pack] to its receiver, after the one
    [miekg/dns] makes: when the rcode of the message is in range, the
    last OPT record of the additional section gets the upper bits of
    the rcode in the top byte of its TTL,
    [rr.Hdr.Ttl = rr.Hdr.Ttl&0x00FFFFFF | uint32(v>>4)<<24]. *)
Definition TypeOPT : Z := 41.

Definition SetExtendedRcode (v : Z) (a : dns.RR) : dns.RR :=
  dns.set_Ttl
    (Z.lor (Z.land (dns.ttl_of a) 16777215)
       (Z.shiftl (Z.shiftr v 4) 24 mod 2 ^ 32))
    a.

Fixpoint set_first_OPT (v : Z) (rrs : list dns.RR) : list dns.RR :=
  match rrs with
  | [] => []
  | a :: rrs =>
      if dns.Rrtype (dns.Header a) =? TypeOPT
      then SetExtendedRcode v a :: rrs
      else a :: set_first_OPT v rrs
  end.

Definition sample_Pack_Extra (m : dns.Msg) : list dns.RR :=
  let rcode := dns.Rcode (dns.Hdr m) in
  if (0 <=? rcode) && (rcode <=? 4095)
  then rev (set_first_OPT rcode (rev (dns.Extra m)))
  else dns.Extra m.

(** The reference conversion of a [float64] that no [uint32] holds:
    the integer part wraps around, 0 for an infinity or a NaN. *)
Definition sample_unrepresentable (x : float64) : Z :=
  match float64_trunc x with
  | Some v => v
  | None => 0
  end.

Definition sample_Unpack (w : bytes) : option dns.Msg :=
  match dec_fields w with
  | Some fs =>
      match dec_rrs fs with
      | Some rrs => Some (dns.set_Answer rrs dns.zeroMsg)
      | None => None
      end
  | None => None
  end.

Definition sample_Marshal (rm : redisMessage.t) : option bytes :=
  Some (enc_field (String.list_byte_of_string (redisMessage.K rm))
        ++ enc_field (redisMessage.M rm)
        ++ enc_field (redisMessage.C rm)).

Definition sample_Unmarshal (w : bytes) : option redisMessage.t :=
  match dec_fields w with
  | Some [k; m; c] =>
      Some (redisMessage.mk (String.string_of_list_byte k) m c)
  | _ => None
  end.

Definition sample_codec : Codec :=
  {| Pack := sample_Pack;
     Pack_Extra := sample_Pack_Extra;
     Unpack := sample_Unpack;
     json_Marshal := sample_Marshal;
     json_Unmarshal := sample_Unmarshal;
     uint32_unrepresentable := sample_unrepresentable |}.

(** ** Sample data *)

(** An address record for a name, with the given TTL. *)
Definition sample_rr (name : string) (ttl : Z) : dns.RR :=
  dns.mkRR (dns.mkRR_Header name 1 1 ttl 0) [x01; x02; x03; x04].

(** An answer section with TTLs 60, 300 and 0. *)
Definition sample_answer : list dns.RR :=
  [sample_rr "a." 60; sample_rr "b." 300; sample_rr "c." 0].



(** A response carrying the given answer section. *)
Definition sample_msg (answer : list dns.RR) : dns.Msg :=
  dns.mkMsg (dns.mkMsgHdr 7 true 0 false false true true false false false 0)
            false [dns.mkQuestion "example.com." 1 1] answer [] [].

(** The identifiers of two instances. *)
Definition sample_id : bytes := [x0a; x0b; x0c; x0d].
Definition peer_id : bytes := [x0a; x0b; x0c; x0e].

(** The envelope of a key, an answer section and an identifier in the
    reference codec, and the message a subscriber receives for it. *)
Definition sample_envelope (key : string) (answer : list dns.RR) (id : bytes)
  : bytes :=
  enc_field (String.list_byte_of_string key)
  ++ enc_field (enc_rrs answer) ++ enc_field id.

Definition sample_broadcast (key : string) (answer : list dns.RR) (id : bytes)
  : redis.Message :=
  redis.mkMessage CacheChannelName String.EmptyString
    (String.string_of_list_byte (sample_envelope key answer id)).

(** A heap holding one message, at address 0: an answer for
    ["example.com/A"] with the sample records. *)
Definition sample_heap : gmap loc dns.Msg :=
  {[ 0%nat := sample_msg sample_answer ]}.


(** The request [PublishCache] queues for that message. *)
Definition sample_request : bufferMessage.t :=
  bufferMessage.mk "example.com/A" (Some 0%nat).

(** A server that holds nothing, accepts every write when [ok] and
    refuses every write otherwise. *)
Definition sample_server (ok : bool) : redis.Client :=
  redis.mkClient (fun _ => []) (fun _ => None) (fun _ => None)
                 (fun _ _ => ok) (fun _ _ _ => ok).

(** A server that holds the given entries, each a key with the reply to
    [Get] and the reply to [TTL] for it; the scan yields the keys in
    the order of the entries. *)
Fixpoint store_lookup {A : Type} (entries : list (string * A)) (key : string)
  : option A :=
  match entries with
  | [] => None
  | (k, v) :: entries =>
      if String.eqb k key then Some v else store_lookup entries key
  end.

Definition store_server (entries : list (string * (option string * option Z)))
  : redis.Client :=
  redis.mkClient
    (fun _ => map fst entries)
    (fun key => match store_lookup entries key with
                | Some (v, _) => v
                | None => None
                end)
    (fun key => match store_lookup entries key with
                | Some (_, t) => t
                | None => None
                end)
    (fun _ _ => true) (fun _ _ _ => true).

(** The value stored for an answer section in the reference codec. *)
Definition sample_value (answer : list dns.RR) : string :=
  String.string_of_list_byte (enc_rrs answer).

(** Four entries of the cache namespace: remaining TTLs of 10 seconds,
    0 seconds and 50 seconds, and before the last a value that does not
    unpack. *)
Definition sample_store : list (string * (option string * option Z)) :=
  [("blocky:cache:a", (Some (sample_value [sample_rr "a." 300]),
                       Some (10 * Second)));
   ("blocky:cache:b", (Some (sample_value [sample_rr "b." 300]), Some 0));
   ("blocky:cache:bad", (Some (String.string_of_list_byte [x05]),
                         Some (20 * Second)));
   ("blocky:cache:c", (Some (sample_value [sample_rr "c." 300]),
                       Some (50 * Second)))].

(** The record forwarded for a key and an answer section. *)
Definition sample_record (key : string) (answer : list dns.RR)
  : CacheMessage.t :=
  CacheMessage.mk key
    (model.mkResponse (dns.set_Answer (map rr_read answer) dns.zeroMsg)
       cacheReason model.ResponseTypeCACHED).

(** A client with the given identifier, idle: nothing logged, queued,
    sent or forwarded yet. *)
Definition sample_client (rdb : redis.Client) (id : bytes) : Client.t :=
  Client.mk rdb [] [] id [] [].

(** ** Construction of the client *)

(** A Go [error] that is returned to the caller of [New]: its text. *)
Definition error := string.

(** A result paired with an error: the value, or the error. *)
Inductive Result (A : Type) :=
| Ok (a : A)
| Err (e : error).
Arguments Ok {A} a.
Arguments Err {A} e.

Module config.
(** Modelled from the spec: [config.RedisConfig] is declared in the
    [config] package, outside this package; the spec lists its content
    as the broker address, the credential, the logical database index,
    the connection-attempt count and the cooldown duration. *)
Record RedisConfig := mkRedisConfig {
  Address : string;
  Password : string;
  Database : Z;
  ConnectionAttempts : Z;
  ConnectionCooldown : Z
}.
End config.

Module redisconn.
(** [redis.Options], the fields [New] sets. *)
Record Options := mkOptions {
  Addr : string;
  Password : string;
  DB : Z;
  MaxRetries : Z;
  MaxRetryBackoff : Z
}.

(** The server a handle made by [redis.NewClient] talks to: the error
    of [Ping], the error of the handshake of a subscription
    ([Subscribe(channel)] followed by [Receive]), and the replies to
    the commands of [redis.Client]. *)
Record Server := mkServer {
  Ping : option error;
  Subscribe : string -> option error;
  commands : redis.Client
}.
End redisconn.

(** What [New] hands back, [res] and [err], and whether the goroutine
    of [startup] has been started. *)
Record NewResult := mkNewResult {
  res : option Client.t;
  err : option error;
  loop : bool
}.

(** [startup] starts a new goroutine for subscription and translation:
    the handshake, and whether the goroutine running the loop (modelled
    by [startup_loop]) is started.  The goroutine assigns the results
    of [json.Unmarshal] and [convertMessage] to the very variable [err]
    that [startup] returns, with no synchronisation: [raced] is the
    value the goroutine has last assigned to it when the [return]
    reads it, [None] when it has assigned none by then. *)
Definition startup (rdb : redisconn.Server) (raced : option (option error))
  : bool * option error :=
  match redisconn.Subscribe rdb CacheChannelName with
  | None =>
      (true, match raced with
             | Some err => err
             | None => None
             end)
  | Some e => (false, Some e)
  end.

(** [New] creates a new redis client.  [NewClient] is
    [redis.NewClient], [uuid] the result of
    [uuid.New().MarshalBinary()] and [raced] what [startup] takes.
    [res] is the client as [New] constructs it; once the goroutine is
    started it shares that client. *)
Definition New (NewClient : redisconn.Options -> redisconn.Server)
    (uuid : Result bytes) (raced : option (option error))
    (cfg : option config.RedisConfig) : NewResult :=
  match cfg with
  | None => mkNewResult None None false
  | Some cfg =>
      if (String.length (config.Address cfg) =? 0)%nat then
        mkNewResult None None false
      else
        let rdb :=
          NewClient
            (redisconn.mkOptions (config.Address cfg) (config.Password cfg)
               (config.Database cfg) (config.ConnectionAttempts cfg)
               (config.ConnectionCooldown cfg)) in
        match redisconn.Ping rdb with
        | None =>
            match uuid with
            | Ok id =>
                let res :=
                  Client.mk (redisconn.commands rdb) [] [] id [] [] in
                let '(started, err) := startup rdb raced in
                mkNewResult (Some res) err started
            | Err e => mkNewResult None (Some e) false
            end
        | Some e => mkNewResult None (Some e) false
        end
  end.

(** ** The client and its callers as a transition system

    A state is the heap of the caller's messages and the client.  A
    transition is a call of [PublishCache] that returns (with a nil
    message or the address of a live one), an iteration of the loop
    that completes, a bulk load, or a step of the caller on its heap,
    which never loses a live message. *)
Section System.
Context `{codec : Codec}.

Inductive sys_step
  : gmap loc dns.Msg * Client.t -> gmap loc dns.Msg * Client.t -> Prop :=
| step_PublishCache h c key message c' :
    (forall p, message = Some p -> is_Some (h !! p)) ->
    PublishCache c key message = Done c' ->
    sys_step (h, c) (h, c')
| step_startup h c r h' c' :
    startup_select h c r = Done (h', c') ->
    sys_step (h, c) (h', c')
| step_GetRedisCache h c :
    sys_step (h, c) (h, GetRedisCache c)
| step_caller h h' c :
    (forall p, is_Some (h !! p) -> is_Some (h' !! p)) ->
    sys_step (h, c) (h', c).

(** The commands the outbound branch sends for a key and a message
    that has [Compress] set, each with the reply of the server. *)
Definition request_commands (rdb : redis.Client) (id : bytes) (key : string)
    (m : dns.Msg) : list (redis.Command * bool) :=
  match Pack m with
  | Some binRes =>
      match json_Marshal (redisMessage.mk key binRes id) with
      | Some binMsg =>
          [(redis.CmdPublish CacheChannelName binMsg,
            redis.Publish rdb CacheChannelName binMsg)]
      | None => []
      end
      ++ [(redis.CmdSet (prefixKey key) binRes (getTTL m),
           redis.Set_ rdb (prefixKey key) binRes (getTTL m))]
  | None => []
  end.

(** The commands of a queued request in a heap. *)
Definition queued_commands (rdb : redis.Client) (id : bytes)
    (h : gmap loc dns.Msg) (s : bufferMessage.t)
  : list (redis.Command * bool) :=
  match bufferMessage.Message s with
  | Some p =>
      match h !! p with
      | Some m =>
          request_commands rdb id (bufferMessage.Key s)
            (dns.set_Compress true m)
      | None => []
      end
  | None => []
  end.

End System.

(** The invariant of the queue of requests: at most [chanCap] requests,
    each with a non-empty key and the address of a live message. *)
Definition queue_ok (h : gmap loc dns.Msg) (c : Client.t) : Prop :=
  (length (Client.sendBuffer c) <= chanCap)%nat
  /\ Forall (valid_request h) (Client.sendBuffer c)
  /\ Forall (fun s => bufferMessage.Key s <> String.EmptyString)
       (Client.sendBuffer c).

(** Two records that differ at most in their TTL and in the length
    field of their header. *)
Definition rr_same_data (a b : dns.RR) : Prop :=
  dns.Name (dns.Header a) = dns.Name (dns.Header b)
  /\ dns.Rrtype (dns.Header a) = dns.Rrtype (dns.Header b)
  /\ dns.Class (dns.Header a) = dns.Class (dns.Header b)
  /\ dns.Rdata a = dns.Rdata b.

(** A server for [New]: reachable or not, accepting the subscription or
    not, holding nothing. *)
Definition sample_conn (ping subscribe : option error)
  : redisconn.Options -> redisconn.Server :=
  fun _ => redisconn.mkServer ping (fun _ => subscribe) (sample_server true).

Definition sample_config : config.RedisConfig :=
  config.mkRedisConfig "redis:6379" "secret" 0 3 Second.

(** * Properties *)

(** ** Namespacing of store keys *)

Lemma substring_whole (s : string) :
  String.substring 0 (String.length s) s = s.
Proof. induction s as [|a s IH]; simpl; [reflexivity | now rewrite IH]. Qed.

Lemma substring_prefix_app (p k : string) :
  String.substring 0 (String.length p) (p +:+ k) = p.
Proof.
  induction p as [|a p IH]; simpl.
  - destruct k; reflexivity.
  - now rewrite IH.
Qed.

Lemma substring_suffix_app (p k : string) :
  String.substring (String.length p)
    (String.length (p +:+ k) - String.length p) (p +:+ k) = k.
Proof.
  induction p as [|a p IH]; simpl.
  - rewrite Nat.sub_0_r. apply substring_whole.
  - exact IH.
Qed.

Lemma length_app_ge (p k : string) :
  (String.length p <= String.length (p +:+ k))%nat.
Proof. induction p as [|a p IH]; simpl; lia. Qed.

Lemma HasPrefix_app (p k : string) : HasPrefix (p +:+ k) p = true.
Proof.
  unfold HasPrefix. rewrite substring_prefix_app, String.eqb_refl.
  rewrite andb_true_r. apply Nat.leb_le, length_app_ge.
Qed.

Lemma TrimPrefix_app (p k : string) : TrimPrefix (p +:+ k) p = k.
Proof.
  unfold TrimPrefix. rewrite HasPrefix_app. apply substring_suffix_app.
Qed.

(** C6.  Stripping the namespace prefix from a prefixed key gives back
    the key, for every string: the empty one and those that contain the
    prefix literal included. *)
Theorem cleanKey_prefixKey (k : string) : cleanKey (prefixKey k) = k.
Proof. unfold cleanKey, prefixKey, Sprintf_ss. apply TrimPrefix_app. Qed.

Example cleanKey_prefixKey_empty :
  cleanKey (prefixKey String.EmptyString) = String.EmptyString.
Proof. reflexivity. Qed.

Example cleanKey_prefixKey_nested :
  cleanKey (prefixKey "blocky:cache:blocky:cache:a")
  = "blocky:cache:blocky:cache:a".
Proof. reflexivity. Qed.

(** ** TTL policy: [getTTL] *)

Lemma getTTL_loop_ge (rrs : list dns.RR) (t : Z) : t <= getTTL_loop t rrs.
Proof.
  revert t. induction rrs as [|a rrs IH]; intros t; simpl; [lia|].
  destruct (Z.gtb_spec (dns.ttl_of a) t);
    (etransitivity; [|apply IH]); lia.
Qed.

Lemma getTTL_loop_bound (rrs : list dns.RR) (t : Z) :
  Forall (fun b => dns.ttl_of b <= getTTL_loop t rrs) rrs.
Proof.
  revert t. induction rrs as [|a rrs IH]; intros t; simpl; constructor.
  - destruct (Z.gtb_spec (dns.ttl_of a) t);
      (etransitivity; [|apply getTTL_loop_ge]); lia.
  - apply IH.
Qed.

Lemma getTTL_loop_attained (rrs : list dns.RR) (t : Z) :
  getTTL_loop t rrs = t \/ exists a, a ∈ rrs /\ getTTL_loop t rrs = dns.ttl_of a.
Proof.
  revert t. induction rrs as [|a rrs IH]; intros t; simpl; [now left|].
  destruct (Z.gtb_spec (dns.ttl_of a) t) as [Hgt|Hle].
  - destruct (IH (dns.ttl_of a)) as [->|(b & Hb & ->)].
    + right. exists a. split; [apply list_elem_of_here | reflexivity].
    + right. exists b. split; [now apply list_elem_of_further | reflexivity].
  - destruct (IH t) as [->|(b & Hb & ->)]; [now left|].
    right. exists b. split; [now apply list_elem_of_further | reflexivity].
Qed.

Lemma getTTL_loop_zero (rrs : list dns.RR) :
  Forall (fun a => dns.ttl_of a = 0) rrs -> getTTL_loop 0 rrs = 0.
Proof.
  induction 1 as [|a rrs Ha _ IH]; simpl; [reflexivity|].
  rewrite Ha. exact IH.
Qed.

Lemma wrap64_seconds (t : Z) : is_uint32 t -> wrap64 (t * Second) = t * Second.
Proof.
  unfold is_uint32, wrap64, Second. intros Ht.
  rewrite Z.mod_small; lia.
Qed.

(** C4.  For an answer whose record TTLs are [uint32] values: when some
    record has a positive TTL, [getTTL] is the TTL of a record of the
    answer that no other record exceeds, as a duration in seconds; when
    every TTL is zero, and in particular when there is no record, it is
    the default of one second. *)
Theorem getTTL_max_or_default (m : dns.Msg) :
  Forall (fun a => is_uint32 (dns.ttl_of a)) (dns.Answer m) ->
  ((exists a, a ∈ dns.Answer m /\ 0 < dns.ttl_of a) ->
   exists a, a ∈ dns.Answer m
             /\ Forall (fun b => dns.ttl_of b <= dns.ttl_of a) (dns.Answer m)
             /\ getTTL m = dns.ttl_of a * Second)
  /\ (Forall (fun a => dns.ttl_of a = 0) (dns.Answer m) ->
      getTTL m = 1 * Second).
Proof.
  intros Hwf. split.
  - intros (a & Ha & Hpos). unfold getTTL.
    pose proof (getTTL_loop_bound (dns.Answer m) 0) as Hb.
    assert (Hm : 0 < getTTL_loop 0 (dns.Answer m)).
    { rewrite Forall_forall in Hb. specialize (Hb a Ha). lia. }
    destruct (getTTL_loop_attained (dns.Answer m) 0) as [H0|(b & Hin & Hb')];
      [lia|].
    exists b. split; [exact Hin|]. split.
    + rewrite <- Hb'. exact Hb.
    + destruct (Z.eqb_spec (getTTL_loop 0 (dns.Answer m)) 0); [lia|].
      rewrite Hb'. apply wrap64_seconds.
      rewrite Forall_forall in Hwf. now apply Hwf.
  - intros Hz. unfold getTTL. now rewrite getTTL_loop_zero.
Qed.

(** Closes the range condition on the TTLs of a concrete answer. *)
Ltac answer_uint32 :=
  unfold sample_answer;
  repeat (apply Forall_cons_2;
          [unfold is_uint32, dns.ttl_of, sample_rr; simpl; lia|]);
  apply Forall_nil_2.

(** The theorem at an answer with TTLs 60, 300 and 0, at one whose only
    TTL is zero, and at the empty answer. *)
Lemma getTTL_max_or_default_witness :
  let rrs := sample_answer in
  Forall (fun a => is_uint32 (dns.ttl_of a)) rrs
  /\ (exists a, a ∈ rrs /\ 0 < dns.ttl_of a)
  /\ (exists a, a ∈ rrs
                /\ Forall (fun b => dns.ttl_of b <= dns.ttl_of a) rrs
                /\ getTTL (sample_msg rrs) = dns.ttl_of a * Second)
  /\ getTTL (sample_msg [sample_rr "c." 0]) = 1 * Second
  /\ getTTL (sample_msg []) = 1 * Second.
Proof.
  cbv zeta.
  assert (Hwf : Forall (fun a => is_uint32 (dns.ttl_of a)) sample_answer).
  { answer_uint32. }
  assert (Hpos : exists a, a ∈ sample_answer /\ 0 < dns.ttl_of a).
  { exists (sample_rr "a." 60). split; [apply list_elem_of_here|].
    unfold dns.ttl_of, sample_rr; simpl; lia. }
  split; [exact Hwf|]. split; [exact Hpos|]. split; [|split].
  - exact (proj1 (getTTL_max_or_default (sample_msg sample_answer) Hwf) Hpos).
  - apply (getTTL_max_or_default (sample_msg [sample_rr "c." 0])).
    + answer_uint32.
    + repeat constructor.
  - apply (getTTL_max_or_default (sample_msg [])); apply Forall_nil_2.
Defined.

(** ** Comparison of identifiers *)

Lemma byte_to_N_inj (x y : byte) : Byte.to_N x = Byte.to_N y -> x = y.
Proof.
  intros H. pose proof (Byte.of_to_N x) as Hx.
  rewrite H, Byte.of_to_N in Hx. congruence.
Qed.

Lemma bytes_Compare_eq (a b : bytes) : bytes_Compare a b = 0 <-> a = b.
Proof.
  revert b. induction a as [|x a IH]; intros [|y b]; simpl;
    try (split; [lia | discriminate]); [tauto|].
  destruct (N.compare_spec (Byte.to_N x) (Byte.to_N y)) as [Heq|Hlt|Hgt].
  - apply byte_to_N_inj in Heq. subst y. rewrite IH.
    split; [congruence | now intros [= ->]].
  - split; [lia | intros [= -> _]; lia].
  - split; [lia | intros [= -> _]; lia].
Qed.

(** ** The reference codec is lossless *)

Lemma dec_fields_enc (f w : bytes) :
  dec_fields (enc_field f ++ w) =
  match dec_fields w with
  | Some fs => Some (f :: fs)
  | None => None
  end.
Proof.
  induction f as [|b f IH]; simpl; [reflexivity|].
  rewrite IH. now destruct (dec_fields w).
Qed.

Lemma dec_Z_enc (z : Z) : dec_Z (enc_Z z) = Some z.
Proof.
  unfold enc_Z, dec_Z. rewrite repeat_length. f_equal.
  destruct (Z.ltb_spec z 0); simpl; lia.
Qed.

Lemma dec_fields_enc_rrs (rrs : list dns.RR) :
  dec_fields (enc_rrs rrs) = Some (flat_map rr_fields rrs).
Proof.
  induction rrs as [|a rrs IH]; simpl; [reflexivity|].
  unfold enc_rr. rewrite <- !app_assoc, !dec_fields_enc, IH. reflexivity.
Qed.

Lemma dec_rrs_fields (rrs : list dns.RR) :
  dec_rrs (flat_map rr_fields rrs) = Some (map rr_read rrs).
Proof.
  induction rrs as [|a rrs IH]; [reflexivity|].
  cbn [flat_map rr_fields app dec_rrs map].
  rewrite !dec_Z_enc, IH, String.string_of_list_byte_of_string. reflexivity.
Qed.

Lemma rr_read_equiv (rrs : list dns.RR) :
  Forall2 dns.rr_equiv (map rr_read rrs) rrs.
Proof.
  induction rrs as [|a rrs IH]; simpl; constructor; [|exact IH].
  unfold dns.rr_equiv, rr_read; simpl. tauto.
Qed.

Lemma sample_Unpack_Pack (m : dns.Msg) (b : bytes) :
  sample_Pack m = Some b ->
  exists m', sample_Unpack b = Some m'
             /\ Forall2 dns.rr_equiv (dns.Answer m') (dns.Answer m).
Proof.
  intros [= <-]. unfold sample_Unpack.
  rewrite dec_fields_enc_rrs, dec_rrs_fields.
  eexists. split; [reflexivity|]. apply rr_read_equiv.
Qed.

Lemma sample_Unmarshal_Marshal (rm : redisMessage.t) (b : bytes) :
  sample_Marshal rm = Some b -> sample_Unmarshal b = Some rm.
Proof.
  intros [= <-]. unfold sample_Unmarshal.
  rewrite !dec_fields_enc.
  replace (enc_field (redisMessage.C rm))
    with (enc_field (redisMessage.C rm) ++ []) by apply app_nil_r.
  rewrite dec_fields_enc. simpl.
  rewrite String.string_of_list_byte_of_string. now destruct rm.
Qed.

(** ** The inbound branch: self-origin filtering *)

Section Inbound.
Context `{codec : Codec}.

(** What the inbound branch does with a message that decodes: it is
    dropped when it carries the identifier of the client, and forwarded
    after conversion otherwise. *)
Lemma startup_recv_decoded (c : Client.t) (msg : redis.Message)
    (rm : redisMessage.t) :
  redis.Payload msg <> String.EmptyString ->
  json_Unmarshal (String.list_byte_of_string (redis.Payload msg)) = Some rm ->
  startup_recv c (Some msg) =
  let c := Client.log (LogDebug "Received message: ") c in
  if decide (redisMessage.C rm = Client.id c) then c
  else match convertMessage rm 0 with
       | Some cm => Client.forward cm c
       | None => c
       end.
Proof.
  intros Hne Hrm.
  assert (Hlen : (0 <? String.length (redis.Payload msg))%nat = true)
    by (destruct (redis.Payload msg); [congruence | reflexivity]).
  unfold startup_recv. rewrite Hlen, Hrm. cbn zeta.
  cbn [Client.id Client.log].
  destruct (decide (redisMessage.C rm = Client.id c)) as [He|He].
  - apply bytes_Compare_eq in He. now rewrite He.
  - destruct (Z.eqb_spec (bytes_Compare (redisMessage.C rm) (Client.id c)) 0)
      as [H0|H0]; [apply bytes_Compare_eq in H0; contradiction | reflexivity].
Qed.

(** C1.  A broadcast message that decodes and carries the identifier of
    the client itself is never forwarded: the iteration of the loop
    that receives it completes and leaves the consumer channel as it
    was, whatever the key and the payload. *)
Theorem self_origin_never_forwarded (h : gmap loc dns.Msg) (c : Client.t)
    (msg : redis.Message) (rm : redisMessage.t) :
  json_Unmarshal (String.list_byte_of_string (redis.Payload msg)) = Some rm ->
  redisMessage.C rm = Client.id c ->
  exists c', startup_select h c (FromSubscription (Some msg)) = Done (h, c')
             /\ Client.CacheChannel c' = Client.CacheChannel c.
Proof.
  intros Hrm Hid. eexists. split; [reflexivity|].
  destruct (decide (redis.Payload msg = String.EmptyString)) as [He|Hne].
  - unfold startup_recv. rewrite He. reflexivity.
  - rewrite (startup_recv_decoded c msg rm Hne Hrm). cbn zeta.
    cbn [Client.id Client.log]. rewrite decide_True by exact Hid. reflexivity.
Qed.

End Inbound.

(** The theorem on the reference codec: the broadcast of an answer by
    the instance that receives it. *)
Lemma self_origin_never_forwarded_witness :
  let c := sample_client (sample_server true) sample_id in
  let msg := sample_broadcast "example.com/A" sample_answer sample_id in
  let rm := redisMessage.mk "example.com/A" (enc_rrs sample_answer) sample_id in
  sample_Unmarshal (String.list_byte_of_string (redis.Payload msg)) = Some rm
  /\ redisMessage.C rm = Client.id c
  /\ exists c',
       startup_select (codec := sample_codec) ∅ c (FromSubscription (Some msg))
       = Done (∅, c')
       /\ Client.CacheChannel c' = Client.CacheChannel c.
Proof.
  cbv zeta.
  assert (H : sample_Unmarshal
                (String.list_byte_of_string
                   (redis.Payload
                      (sample_broadcast "example.com/A" sample_answer
                         sample_id)))
              = Some (redisMessage.mk "example.com/A" (enc_rrs sample_answer)
                        sample_id))
    by (vm_compute; reflexivity).
  split; [exact H|]. split; [reflexivity|].
  exact (self_origin_never_forwarded (codec := sample_codec) ∅
           (sample_client (sample_server true) sample_id) _ _ H eq_refl).
Defined.

(** ** The outbound branch *)

Section Outbound.
Context `{codec : Codec}.

(** The outbound branch on a request whose message pointer is valid. *)
Lemma startup_send_valid (h : gmap loc dns.Msg) (c : Client.t)
    (s : bufferMessage.t) (p : loc) (m : dns.Msg) :
  bufferMessage.Message s = Some p ->
  h !! p = Some m ->
  startup_send h c s =
  Done (<[p := after_Pack (dns.set_Compress true m)]> h,
        match Pack (dns.set_Compress true m) with
        | Some binRes =>
            Client.do_Set (prefixKey (bufferMessage.Key s)) binRes
              (getTTL (dns.set_Compress true m))
              match json_Marshal
                      (redisMessage.mk (bufferMessage.Key s) binRes
                         (Client.id c)) with
              | Some binMsg => Client.do_Publish CacheChannelName binMsg c
              | None => c
              end
        | None => c
        end).
Proof.
  intros Hp Hm. unfold startup_send. rewrite Hp, Hm. cbn zeta.
  now destruct (Pack (dns.set_Compress true m)).
Qed.

(** [PublishCache] on a valid request and a buffer with room. *)
Lemma PublishCache_valid (c : Client.t) (key : string) (p : loc) :
  key <> String.EmptyString ->
  (length (Client.sendBuffer c) < chanCap)%nat ->
  PublishCache c key (Some p) =
  Done (Client.enqueue (bufferMessage.mk key (Some p)) c).
Proof.
  intros Hk Hroom. unfold PublishCache.
  assert (Hlen : (0 <? String.length key)%nat = true)
    by (destruct key; [congruence | reflexivity]).
  rewrite Hlen, bool_decide_true by discriminate. cbn [andb].
  apply Nat.ltb_lt in Hroom. now rewrite Hroom.
Qed.

Section Roundtrip.

(** The two codecs are lossless: [json.Unmarshal] reads back the
    envelope [json.Marshal] wrote, and [Unpack] reads back the answer
    records [Pack] wrote, up to the length field of their headers. *)
Hypothesis json_roundtrip : forall rm b,
  json_Marshal rm = Some b -> json_Unmarshal b = Some rm.
Hypothesis dns_roundtrip : forall m b,
  Pack m = Some b ->
  exists m', Unpack b = Some m'
             /\ Forall2 dns.rr_equiv (dns.Answer m') (dns.Answer m).

(** C2.  A non-empty key and a non-nil answer are published on a client
    whose buffer has room: the request is accepted as it is.  When the
    loop takes the request, in whatever state [c0] the client is then,
    and the answer packs and the envelope marshals, the iteration
    broadcasts the envelope; decoding that envelope as the inbound
    branch does (unmarshal the payload received, then convert with no
    remaining TTL) gives a record with the same key and an answer whose
    records are equivalent to those of the published answer. *)
Theorem publish_decode_roundtrip (h : gmap loc dns.Msg) (c c0 : Client.t)
    (key : string) (p : loc) (m : dns.Msg) (binRes binMsg : bytes) :
  key <> String.EmptyString ->
  h !! p = Some m ->
  (length (Client.sendBuffer c) < chanCap)%nat ->
  Pack (dns.set_Compress true m) = Some binRes ->
  json_Marshal (redisMessage.mk key binRes (Client.id c0)) = Some binMsg ->
  let s := bufferMessage.mk key (Some p) in
  exists h2 c2 okP set rm cm,
    PublishCache c key (Some p) = Done (Client.enqueue s c)
    /\ startup_send h c0 s = Done (h2, c2)
    /\ Client.issued c2 =
       Client.issued c0
       ++ [(redis.CmdPublish CacheChannelName binMsg, okP); set]
    /\ json_Unmarshal
         (String.list_byte_of_string (String.string_of_list_byte binMsg))
       = Some rm
    /\ convertMessage rm 0 = Some cm
    /\ CacheMessage.Key cm = key
    /\ Forall2 dns.rr_equiv
         (dns.Answer (model.Res (CacheMessage.Response cm))) (dns.Answer m).
Proof.
  intros Hk Hm Hroom Hpack Hjson s.
  destruct (dns_roundtrip _ _ Hpack) as (m' & Hun & Heq).
  eexists _, _, _, _, _, _. split; [|split; [|split; [|split; [|split]]]].
  - now apply PublishCache_valid.
  - rewrite (startup_send_valid h c0 s p m eq_refl Hm).
    cbn [s bufferMessage.Key]. rewrite Hpack. cbn beta iota.
    rewrite Hjson. reflexivity.
  - cbn [Client.do_Set Client.do_Publish Client.issued Client.client].
    rewrite <- app_assoc. reflexivity.
  - rewrite String.list_byte_of_string_of_list_byte.
    apply json_roundtrip, Hjson.
  - unfold convertMessage. cbn [redisMessage.M]. rewrite Hun. reflexivity.
  - split; [reflexivity | exact Heq].
Qed.

End Roundtrip.
End Outbound.

Lemma sample_heap_0 : sample_heap !! 0%nat = Some (sample_msg sample_answer).
Proof. apply lookup_singleton_eq. Qed.

Lemma sample_request_valid : valid_request sample_heap sample_request.
Proof. exists 0%nat. split; [reflexivity|]. rewrite sample_heap_0. eauto. Qed.

(** The theorem on the reference codec: instance A publishes the
    message of the sample heap for ["example.com/A"]. *)
Lemma publish_decode_roundtrip_witness :
  let c := sample_client (sample_server true) sample_id in
  let c0 := Client.set_sendBuffer [] (Client.enqueue sample_request c) in
  let binRes := enc_rrs sample_answer in
  let binMsg := sample_envelope "example.com/A" sample_answer sample_id in
  (forall rm b, sample_Marshal rm = Some b -> sample_Unmarshal b = Some rm)
  /\ (forall m b, sample_Pack m = Some b ->
        exists m', sample_Unpack b = Some m'
                   /\ Forall2 dns.rr_equiv (dns.Answer m') (dns.Answer m))
  /\ ("example.com/A" : string) <> String.EmptyString
  /\ sample_heap !! 0%nat = Some (sample_msg sample_answer)
  /\ (length (Client.sendBuffer c) < chanCap)%nat
  /\ sample_Pack (dns.set_Compress true (sample_msg sample_answer))
     = Some binRes
  /\ sample_Marshal (redisMessage.mk "example.com/A" binRes (Client.id c0))
     = Some binMsg
  /\ exists h2 c2 okP set rm cm,
      PublishCache c "example.com/A" (Some 0%nat)
      = Done (Client.enqueue sample_request c)
      /\ startup_send (codec := sample_codec) sample_heap c0 sample_request
         = Done (h2, c2)
      /\ Client.issued c2 =
         Client.issued c0
         ++ [(redis.CmdPublish CacheChannelName binMsg, okP); set]
      /\ sample_Unmarshal
           (String.list_byte_of_string (String.string_of_list_byte binMsg))
         = Some rm
      /\ convertMessage (codec := sample_codec) rm 0 = Some cm
      /\ CacheMessage.Key cm = "example.com/A"
      /\ Forall2 dns.rr_equiv
           (dns.Answer (model.Res (CacheMessage.Response cm)))
           (dns.Answer (sample_msg sample_answer)).
Proof.
  cbv zeta.
  assert (Hroom : (length (Client.sendBuffer
                             (sample_client (sample_server true) sample_id))
                   < chanCap)%nat) by (cbn; unfold chanCap; lia).
  split; [exact sample_Unmarshal_Marshal|].
  split; [exact sample_Unpack_Pack|].
  split; [discriminate|].
  split; [exact sample_heap_0|].
  split; [exact Hroom|]. split; [reflexivity|]. split; [reflexivity|].
  apply (publish_decode_roundtrip (codec := sample_codec)
           sample_Unmarshal_Marshal sample_Unpack_Pack
           sample_heap
           (sample_client (sample_server true) sample_id)
           (Client.set_sendBuffer []
              (Client.enqueue sample_request
                 (sample_client (sample_server true) sample_id)))
           "example.com/A" 0%nat (sample_msg sample_answer)
           (enc_rrs sample_answer)
           (sample_envelope "example.com/A" sample_answer sample_id));
    [discriminate | exact sample_heap_0 | exact Hroom
     | reflexivity | reflexivity].
Defined.

(** ** The publish entry point *)

(** C7.  [PublishCache] with an empty key or a nil answer returns at
    once and leaves the client as it was: nothing is queued for the
    coordinating loop, no command is sent to the broker and nothing is
    logged. *)
Theorem PublishCache_invalid_ignored (c : Client.t) (key : string)
    (message : option loc) :
  key = String.EmptyString \/ message = None ->
  PublishCache c key message = Done c.
Proof.
  intros [-> | ->]; unfold PublishCache.
  - reflexivity.
  - rewrite bool_decide_false by (intros H; now apply H).
    now rewrite andb_false_r.
Qed.

(** The theorem at an empty key with an answer, and at a key without
    an answer. *)
Lemma PublishCache_invalid_ignored_witness :
  let c := sample_client (sample_server true) sample_id in
  (String.EmptyString = String.EmptyString \/ Some 0%nat = None)
  /\ PublishCache c String.EmptyString (Some 0%nat) = Done c
  /\ (("example.com/A" : string) = String.EmptyString \/ @None loc = None)
  /\ PublishCache c "example.com/A" None = Done c.
Proof.
  cbv zeta.
  split; [now left|].
  split; [apply PublishCache_invalid_ignored; now left|].
  split; [now right|].
  apply PublishCache_invalid_ignored; now right.
Defined.

(** ** Effects of the outbound branch *)

Section OutboundEffects.
Context `{codec : Codec}.


(** A valid request stays valid when the message of a valid request is
    overwritten. *)
Lemma valid_request_insert (h : gmap loc dns.Msg) (p : loc) (m : dns.Msg)
    (s : bufferMessage.t) :
  valid_request h s -> valid_request (<[p := m]> h) s.
Proof.
  intros (q & Hq & Hs). exists q. split; [exact Hq|].
  rewrite lookup_insert_is_Some. destruct (decide (p = q)); auto.
Qed.

(** The outbound branch on a valid request: it completes, writes only
    at the address of the request, and changes nothing of the client
    but the record of the commands sent. *)
Lemma startup_send_completes (h : gmap loc dns.Msg) (c : Client.t)
    (s : bufferMessage.t) :
  valid_request h s ->
  exists p m c',
    startup_send h c s = Done (<[p := m]> h, c')
    /\ Client.client c' = Client.client c
    /\ Client.l c' = Client.l c
    /\ Client.id c' = Client.id c
    /\ Client.sendBuffer c' = Client.sendBuffer c
    /\ Client.CacheChannel c' = Client.CacheChannel c.
Proof.
  intros (p & Hp & [m Hm]). exists p, (after_Pack (dns.set_Compress true m)).
  rewrite (startup_send_valid h c s p m Hp Hm).
  eexists. split; [reflexivity|].
  destruct (Pack (dns.set_Compress true m)) as [binRes|];
    [|repeat split].
  destruct (json_Marshal _); repeat split.
Qed.

(** The loop takes every queued request in turn, whatever happens to
    the commands it sends. *)
Lemma startup_loop_drains (q : list bufferMessage.t) :
  forall (h : gmap loc dns.Msg) (c : Client.t),
    Client.sendBuffer c = q ->
    Forall (valid_request h) q ->
    exists h' c',
      startup_loop h c (replicate (length q) FromSendBuffer) = Done (h', c')
      /\ Client.sendBuffer c' = []
      /\ Client.l c' = Client.l c
      /\ Client.CacheChannel c' = Client.CacheChannel c.
Proof.
  induction q as [|s q IH]; intros h c Hq Hv.
  - exists h, c. now rewrite Hq.
  - apply Forall_cons in Hv as [Hs Hv].
    destruct (startup_send_completes h (Client.set_sendBuffer q c) s Hs)
      as (p & m & c1 & Hstep & _ & Hl & _ & Hq1 & Hch).
    destruct (IH (<[p := m]> h) c1 Hq1) as (h' & c' & Hloop & He & Hl' & Hch').
    { eapply Forall_impl; [exact Hv|]. intros s'. apply valid_request_insert. }
    exists h', c'. cbn [length replicate startup_loop startup_select].
    rewrite Hq, Hstep, Hloop, He, Hl', Hl, Hch', Hch. now destruct c.
Qed.

(** C8, as the code has it.  On a valid request the outbound iteration
    always completes and logs nothing, whatever the broker answers.
    When the answer packs, the store write is sent whether or not the
    broadcast was sent and whatever the broker replied to it, and the
    broadcast is sent before it whenever the envelope marshals; the
    reply of the broker to either command is dropped.  And a loop whose
    queue holds valid requests takes all of them, one per iteration,
    without logging anything. *)
Theorem outbound_failures_ignored (h : gmap loc dns.Msg) (c : Client.t)
    (s : bufferMessage.t) (p : loc) (m : dns.Msg) :
  bufferMessage.Message s = Some p ->
  h !! p = Some m ->
  Forall (valid_request h) (Client.sendBuffer c) ->
  (exists h' c',
      startup_send h c s = Done (h', c')
      /\ Client.l c' = Client.l c
      /\ Client.sendBuffer c' = Client.sendBuffer c
      /\ Client.CacheChannel c' = Client.CacheChannel c
      /\ forall binRes,
          Pack (dns.set_Compress true m) = Some binRes ->
          let set :=
            redis.CmdSet (prefixKey (bufferMessage.Key s)) binRes
              (getTTL (dns.set_Compress true m)) in
          let env :=
            redisMessage.mk (bufferMessage.Key s) binRes (Client.id c) in
          let okS :=
            redis.Set_ (Client.client c) (prefixKey (bufferMessage.Key s))
              binRes (getTTL (dns.set_Compress true m)) in
          (forall binMsg,
              json_Marshal env = Some binMsg ->
              Client.issued c' =
              Client.issued c
              ++ [(redis.CmdPublish CacheChannelName binMsg,
                   redis.Publish (Client.client c) CacheChannelName binMsg);
                  (set, okS)])
          /\ (json_Marshal env = None ->
              Client.issued c' = Client.issued c ++ [(set, okS)]))
  /\ exists h' c',
      startup_loop h c
        (replicate (length (Client.sendBuffer c)) FromSendBuffer)
      = Done (h', c')
      /\ Client.sendBuffer c' = []
      /\ Client.l c' = Client.l c.
Proof.
  intros Hp Hm Hv. split.
  - rewrite (startup_send_valid h c s p m Hp Hm).
    eexists _, _. split; [reflexivity|].
    destruct (Pack (dns.set_Compress true m)) as [binRes|].
    + destruct (json_Marshal _) as [binMsg|] eqn:Hj.
      * split; [reflexivity|]. split; [reflexivity|]. split; [reflexivity|].
        intros binRes' [= <-]. cbv zeta. rewrite Hj. split; [|discriminate].
        intros binMsg' [= <-].
        cbn [Client.do_Set Client.do_Publish Client.issued Client.client].
        rewrite <- app_assoc. reflexivity.
      * split; [reflexivity|]. split; [reflexivity|]. split; [reflexivity|].
        intros binRes' [= <-]. cbv zeta. rewrite Hj. split; [discriminate|].
        intros _. reflexivity.
    + split; [reflexivity|]. split; [reflexivity|]. split; [reflexivity|].
      discriminate.
  - destruct (startup_loop_drains (Client.sendBuffer c) h c eq_refl Hv)
      as (h' & c' & Hloop & He & Hl & _).
    now exists h', c'.
Qed.

End OutboundEffects.



(** C8 as the specification states it fails on the code: against a
    broker that refuses every write, the outbound iteration sends the
    broadcast and the store write, both fail, and no line is logged. *)
Lemma outbound_failure_not_logged_counterexample :
  let c :=
    Client.enqueue sample_request
      (sample_client (sample_server false) sample_id) in
  exists h' c',
    startup_select (codec := sample_codec) sample_heap c FromSendBuffer
    = Done (h', c')
    /\ Client.issued c' =
       [(redis.CmdPublish CacheChannelName
           (sample_envelope "example.com/A" sample_answer sample_id), false);
        (redis.CmdSet "blocky:cache:example.com/A" (enc_rrs sample_answer)
           (300 * Second), false)]
    /\ Client.l c = []
    /\ Client.l c' = [].
Proof.
  cbv zeta. eexists _, _. split.
  - unfold startup_select. cbn [Client.enqueue Client.sendBuffer
                                  sample_client app].
    apply (startup_send_valid (codec := sample_codec) sample_heap _
             sample_request 0%nat _ eq_refl sample_heap_0).
  - split; [vm_compute; reflexivity|]. split; reflexivity.
Qed.

(** The theorem on the sample heap, against a broker that refuses every
    write. *)
Lemma outbound_failures_ignored_witness :
  let c :=
    Client.enqueue sample_request
      (sample_client (sample_server false) sample_id) in
  let m := sample_msg sample_answer in
  bufferMessage.Message sample_request = Some 0%nat
  /\ sample_heap !! 0%nat = Some m
  /\ Forall (valid_request sample_heap) (Client.sendBuffer c)
  /\ (exists h' c',
         startup_send (codec := sample_codec) sample_heap c sample_request
         = Done (h', c')
         /\ Client.l c' = Client.l c
         /\ Client.sendBuffer c' = Client.sendBuffer c
         /\ Client.CacheChannel c' = Client.CacheChannel c)
  /\ exists h' c',
      startup_loop (codec := sample_codec) sample_heap c
        (replicate (length (Client.sendBuffer c)) FromSendBuffer)
      = Done (h', c')
      /\ Client.sendBuffer c' = []
      /\ Client.l c' = Client.l c.
Proof.
  cbv zeta.
  assert (Hv : Forall (valid_request sample_heap)
                 (Client.sendBuffer
                    (Client.enqueue sample_request
                       (sample_client (sample_server false) sample_id))))
    by (apply Forall_cons_2; [exact sample_request_valid | apply Forall_nil_2]).
  split; [reflexivity|]. split; [exact sample_heap_0|]. split; [exact Hv|].
  destruct (outbound_failures_ignored (codec := sample_codec) sample_heap
              (Client.enqueue sample_request
                 (sample_client (sample_server false) sample_id))
              sample_request 0%nat (sample_msg sample_answer)
              eq_refl sample_heap_0 Hv)
    as [(h1 & c1 & Hstep & Hl & Hq & Hch & _) Hloop].
  split; [|exact Hloop].
  exists h1, c1. repeat split; assumption.
Defined.

(** ** Conversion of stored and broadcast messages *)

(** *** Whole numbers in [float64] *)

Lemma digits2_pos_lower (p : positive) :
  2 ^ (Zpos (SpecFloat.digits2_pos p) - 1) <= Zpos p.
Proof.
  induction p as [p IH|p IH|]; cbn [SpecFloat.digits2_pos].
  - rewrite Pos2Z.inj_succ.
    replace (Z.succ (Zpos (SpecFloat.digits2_pos p)) - 1)
      with (Z.succ (Zpos (SpecFloat.digits2_pos p) - 1)) by lia.
    rewrite Z.pow_succ_r by lia. lia.
  - rewrite Pos2Z.inj_succ.
    replace (Z.succ (Zpos (SpecFloat.digits2_pos p)) - 1)
      with (Z.succ (Zpos (SpecFloat.digits2_pos p) - 1)) by lia.
    rewrite Z.pow_succ_r by lia. lia.
  - cbn. lia.
Qed.

Lemma digits2_pos_le (p : positive) (n : Z) :
  0 <= n -> Zpos p < 2 ^ n -> Zpos (SpecFloat.digits2_pos p) <= n.
Proof.
  intros Hn Hp. pose proof (digits2_pos_lower p) as Hl.
  destruct (Z_le_gt_dec (Zpos (SpecFloat.digits2_pos p)) n) as [|Hgt];
    [assumption|].
  assert (2 ^ n <= 2 ^ (Zpos (SpecFloat.digits2_pos p) - 1))
    by (apply Z.pow_le_mono_r; lia).
  lia.
Qed.

Lemma iter_xO_digits (d p : positive) :
  SpecFloat.digits2_pos (Pos.iter xO p d)
  = (SpecFloat.digits2_pos p + d)%positive.
Proof.
  induction d as [|d IH] using Pos.peano_ind.
  - cbn. lia.
  - rewrite Pos.iter_succ. cbn [SpecFloat.digits2_pos]. rewrite IH. lia.
Qed.

Lemma iter_xO_value (d p : positive) :
  Zpos (Pos.iter xO p d) = Zpos p * 2 ^ Zpos d.
Proof.
  induction d as [|d IH] using Pos.peano_ind.
  - cbn. lia.
  - rewrite Pos.iter_succ, Pos2Z.inj_xO, IH, Pos2Z.inj_succ.
    rewrite Z.pow_succ_r by lia. lia.
Qed.

(** A positive integer below [2^32] is a [float64]: its conversion is
    the integer itself, the mantissa shifted to 53 bits. *)
Lemma float64_of_int_exact (p : positive) :
  Zpos p < 2 ^ 32 ->
  exists m d,
    float64_of_int (Zpos p) = SpecFloat.S754_finite false m (Zneg d)
    /\ Zpos m = Zpos p * 2 ^ Zpos d.
Proof.
  intros Hp.
  pose proof (digits2_pos_le p 32 ltac:(lia) Hp) as Hd.
  unfold float64_of_int, SpecFloat.binary_normalize, SpecFloat.binary_round.
  set (dg := SpecFloat.digits2_pos p) in *.
  assert (Hfexp : SpecFloat.fexp 53 1024 (Zpos dg + 0) = Zpos dg - 53).
  { unfold SpecFloat.fexp, SpecFloat.emin. lia. }
  rewrite Hfexp. unfold SpecFloat.shl_align.
  destruct (Zpos dg - 53 - 0) as [|q|d] eqn:Hsub; [lia|lia|].
  assert (He : Zpos dg - 53 = Zneg d) by lia. rewrite He.
  exists (Pos.iter xO p d), d. split; [|apply iter_xO_value].
  unfold SpecFloat.binary_round_aux, SpecFloat.shr_fexp.
  cbn [SpecFloat.Zdigits2]. rewrite iter_xO_digits. fold dg.
  assert (Hfexp2 :
            SpecFloat.fexp 53 1024 (Zpos (dg + d) + Zneg d) - Zneg d = 0).
  { unfold SpecFloat.fexp, SpecFloat.emin. lia. }
  rewrite Hfexp2. cbn [SpecFloat.shr SpecFloat.shr_record_of_loc
                       SpecFloat.shr_m SpecFloat.loc_of_shr_record
                       SpecFloat.round_nearest_even SpecFloat.Zdigits2].
  rewrite iter_xO_digits. fold dg. rewrite Hfexp2.
  cbn [SpecFloat.shr SpecFloat.shr_record_of_loc SpecFloat.shr_m].
  reflexivity.
Qed.

Lemma float64_trunc_of_int (k : Z) :
  0 <= k < 2 ^ 32 -> float64_trunc (float64_of_int k) = Some k.
Proof.
  intros Hk. destruct k as [|p|p]; [reflexivity| |lia].
  destruct (float64_of_int_exact p) as (m & d & -> & Hm); [lia|].
  cbn [float64_trunc SpecFloat.cond_Zopp]. rewrite Hm.
  now rewrite Z.div_mul by lia.
Qed.

(** A whole number of seconds below [2^32] is its own [Seconds()]. *)
Lemma Duration_Seconds_whole (k : Z) :
  0 <= k < 2 ^ 32 -> Duration_Seconds (k * Second) = float64_of_int k.
Proof.
  intros Hk. unfold Duration_Seconds.
  rewrite Z.quot_mul, Z.rem_mul by (unfold Second; lia).
  replace (SpecFloat.SFdiv 53 1024 (float64_of_int 0)
             (float64_of_int 1000000000))
    with (SpecFloat.S754_zero false) by (vm_compute; reflexivity).
  destruct k as [|p|p]; [reflexivity| |lia].
  destruct (float64_of_int_exact p) as (m & d & -> & _); [lia|].
  reflexivity.
Qed.

Section SecondsConversion.
Context `{codec : Codec}.

Lemma Seconds_uint32_whole (k : Z) :
  0 <= k < 2 ^ 32 -> Seconds_uint32 (k * Second) = k.
Proof.
  intros Hk. unfold Seconds_uint32, float64_to_uint32.
  rewrite Duration_Seconds_whole, float64_trunc_of_int by exact Hk.
  destruct (Z.leb_spec 0 k); [|lia].
  destruct (Z.ltb_spec k (2 ^ 32)); [reflexivity | lia].
Qed.

Lemma Seconds_uint32_range (d : Z) : is_uint32 (Seconds_uint32 d).
Proof.
  unfold Seconds_uint32, float64_to_uint32, is_uint32.
  destruct (float64_trunc (Duration_Seconds d)) as [v|];
    [|apply Z.mod_pos_bound; lia].
  destruct (Z.leb_spec 0 v); cbn [andb]; [|apply Z.mod_pos_bound; lia].
  destruct (Z.ltb_spec v (2 ^ 32)); [lia | apply Z.mod_pos_bound; lia].
Qed.

End SecondsConversion.

(** The conversion follows the rounding of [float64]: a nanosecond
    short of [2^24 + 1] seconds is [2^24 + 1] seconds, and half a
    second is none. *)
Example Seconds_uint32_rounds :
  Seconds_uint32 (codec := sample_codec) 16777216999999999 = 16777217
  /\ Seconds_uint32 (codec := sample_codec) 16777215999999999 = 16777215
  /\ Seconds_uint32 (codec := sample_codec) 500000000 = 0.
Proof. repeat split; vm_compute; reflexivity. Qed.

Section Conversion.
Context `{codec : Codec}.

Lemma convertMessage_unpacked (rm : redisMessage.t) (ttl : Z) (m : dns.Msg) :
  Unpack (redisMessage.M rm) = Some m ->
  convertMessage rm ttl =
  Some (CacheMessage.mk (redisMessage.K rm)
          (model.mkResponse
             (if ttl >? 0 then
                dns.set_Answer
                  (map (dns.set_Ttl (Seconds_uint32 ttl)) (dns.Answer m)) m
              else m)
             cacheReason model.ResponseTypeCACHED)).
Proof. intros H. unfold convertMessage. now rewrite H. Qed.

Lemma convertMessage_failed (rm : redisMessage.t) (ttl : Z) :
  Unpack (redisMessage.M rm) = None -> convertMessage rm ttl = None.
Proof. intros H. unfold convertMessage. now rewrite H. Qed.

Lemma Forall_ttl_restamped (t : Z) (rrs : list dns.RR) :
  Forall (fun a => dns.ttl_of a = t) (map (dns.set_Ttl t) rrs).
Proof. induction rrs; simpl; constructor; auto. Qed.

(** C5, as the code has it.  When the message unpacks, the conversion
    succeeds.  With a remaining TTL that is zero or negative the answer
    records are those unpacked, untouched.  With a positive remaining
    TTL every answer record is the unpacked one with its TTL replaced
    by [uint32(ttl.Seconds())], one [uint32] for all of them: exactly
    the remaining TTL when that is a whole number [k] of seconds below
    [2^32], and never the remaining TTL when that is [2^32] seconds or
    more, which the field cannot hold. *)
Theorem convertMessage_restamp (rm : redisMessage.t) (ttl : Z) (m : dns.Msg) :
  Unpack (redisMessage.M rm) = Some m ->
  exists cm,
    convertMessage rm ttl = Some cm
    /\ let rrs := dns.Answer (model.Res (CacheMessage.Response cm)) in
       (ttl <= 0 -> rrs = dns.Answer m)
       /\ (0 < ttl ->
           rrs = map (dns.set_Ttl (Seconds_uint32 ttl)) (dns.Answer m)
           /\ is_uint32 (Seconds_uint32 ttl))
       /\ (forall k, 0 < k < 2 ^ 32 -> ttl = k * Second ->
           Forall (fun a => dns.ttl_of a = k) rrs)
       /\ (2 ^ 32 * Second <= ttl ->
           Forall (fun a => dns.ttl_of a * Second <> ttl) rrs).
Proof.
  intros Hun. eexists. split; [exact (convertMessage_unpacked rm ttl m Hun)|].
  cbn [CacheMessage.Response model.Res].
  pose proof (Seconds_uint32_range ttl) as Hr.
  destruct (Z.gtb_spec ttl 0) as [Hpos|Hle]; cbn [dns.set_Answer dns.Answer].
  - split; [lia|]. split; [now split|]. split.
    + intros k Hk ->. rewrite Seconds_uint32_whole by lia.
      apply Forall_ttl_restamped.
    + intros Hbig. eapply Forall_impl; [apply Forall_ttl_restamped|].
      intros a ->. unfold is_uint32 in Hr. unfold Second in *. lia.
  - split; [reflexivity|]. split; [lia|]. split.
    + intros k Hk ->. unfold Second in Hle. lia.
    + unfold Second. lia.
Qed.

End Conversion.

(** The theorem on the reference codec: a stored answer with a TTL of
    300 read with 10 seconds remaining, with nothing remaining, and
    with the replies [-1] and [-2] of the broker for a key that has no
    expiry or does not exist. *)
Lemma convertMessage_restamp_witness :
  let rm := redisMessage.mk "a" (enc_rrs [sample_rr "a." 300]) [] in
  let ttls ttl :=
    match convertMessage (codec := sample_codec) rm ttl with
    | Some cm =>
        map dns.ttl_of (dns.Answer (model.Res (CacheMessage.Response cm)))
    | None => []
    end in
  sample_Unpack (redisMessage.M rm)
  = Some (dns.set_Answer [rr_read (sample_rr "a." 300)] dns.zeroMsg)
  /\ (exists cm, convertMessage (codec := sample_codec) rm (10 * Second)
                 = Some cm)
  /\ ttls (10 * Second) = [10]
  /\ ttls 0 = [300]
  /\ ttls (-1) = [300]
  /\ ttls (-2) = [300].
Proof.
  cbv zeta.
  assert (Hun : sample_Unpack (enc_rrs [sample_rr "a." 300])
                = Some (dns.set_Answer [rr_read (sample_rr "a." 300)]
                          dns.zeroMsg))
    by (vm_compute; reflexivity).
  split; [exact Hun|]. split; [|repeat split; vm_compute; reflexivity].
  destruct (convertMessage_restamp (codec := sample_codec)
              (redisMessage.mk "a" (enc_rrs [sample_rr "a." 300]) [])
              (10 * Second) _ Hun) as (cm & Hcm & _).
  now exists cm.
Defined.

(** C5 as the specification states it fails on the code: for a key
    with [2^32] seconds remaining, a positive TTL of whole seconds as
    the broker reports them, the TTL of the record is set to a
    [uint32], which is not the remaining TTL; nor is it the original
    TTL of 300. *)
Lemma restamp_overflow_counterexample :
  let rm := redisMessage.mk "a" (enc_rrs [sample_rr "a." 300]) [] in
  let ttl := 2 ^ 32 * Second in
  0 < ttl
  /\ wrap64 ttl = ttl
  /\ exists cm,
      convertMessage (codec := sample_codec) rm ttl = Some cm
      /\ Forall (fun a => is_uint32 (dns.ttl_of a))
           (dns.Answer (model.Res (CacheMessage.Response cm)))
      /\ map dns.ttl_of (dns.Answer (model.Res (CacheMessage.Response cm)))
         <> [300]
      /\ ~ Forall (fun a => dns.ttl_of a * Second = ttl)
             (dns.Answer (model.Res (CacheMessage.Response cm))).
Proof.
  cbv zeta. split; [reflexivity|]. split; [reflexivity|].
  eexists. split; [vm_compute; reflexivity|].
  split; [|split].
  - apply Forall_cons_2; [|apply Forall_nil_2].
    unfold is_uint32. cbn. lia.
  - cbn. discriminate.
  - intros H. apply Forall_cons in H as [H _]. vm_compute in H. discriminate.
Qed.

(** ** The bulk loader *)

Section BulkLoad.
Context `{codec : Codec}.

(** One iteration of the scan forwards the record of the key if there
    is one, and logs the failure otherwise; it never ends the scan. *)
Lemma GetRedisCache_body_spec (c : Client.t) (key : string) :
  GetRedisCache_body c key =
  match stored_record (Client.client c) key with
  | Some cm => Client.forward cm c
  | None =>
      Client.log (LogError "GetRedisCache ")
        (Client.log (LogError "Conversion error: ") c)
  end.
Proof.
  unfold GetRedisCache_body, getResponse, stored_record, convertMessage.
  cbn [redisMessage.M redisMessage.K].
  destruct (redis.Get (Client.client c) key) as [resp|]; [|reflexivity].
  destruct (redis.TTL (Client.client c) key) as [ttl|]; [|reflexivity].
  now destruct (Unpack (String.list_byte_of_string resp)).
Qed.

Lemma GetRedisCache_body_client (c : Client.t) (key : string) :
  Client.client (GetRedisCache_body c key) = Client.client c.
Proof.
  rewrite GetRedisCache_body_spec.
  now destruct (stored_record (Client.client c) key).
Qed.

Lemma omap_cons_case {A B : Type} (f : A -> option B) (x : A) (xs : list A) :
  omap f (x :: xs) =
  match f x with
  | Some y => y :: omap f xs
  | None => omap f xs
  end.
Proof. reflexivity. Qed.

Lemma GetRedisCache_scan (keys : list string) :
  forall c : Client.t,
    Client.CacheChannel (fold_left GetRedisCache_body keys c) =
    Client.CacheChannel c ++ omap (stored_record (Client.client c)) keys.
Proof.
  induction keys as [|key keys IH]; intros c; cbn [fold_left].
  - cbn. now rewrite app_nil_r.
  - rewrite IH, GetRedisCache_body_client, GetRedisCache_body_spec.
    rewrite omap_cons_case.
    destruct (stored_record (Client.client c) key) as [cm|];
      cbn [Client.forward Client.log Client.CacheChannel].
    + now rewrite <- app_assoc.
    + reflexivity.
Qed.

(** C3, as the code has it.  The bulk load forwards, in scan order, one
    record for each scanned key whose value and remaining TTL are read
    and whose value unpacks, whatever the remaining TTL: a positive one
    restamps the records, any other leaves them as stored.  A key whose
    read or decoding fails gives no record, and the records of the keys
    before and after it are forwarded all the same. *)
Theorem GetRedisCache_yields (c : Client.t) :
  let rdb := Client.client c in
  let keys := redis.Scan rdb (prefixKey "*") in
  let new := omap (stored_record rdb) keys in
  Client.CacheChannel (GetRedisCache c) = Client.CacheChannel c ++ new
  /\ (forall cm,
         cm ∈ new <->
         exists key resp ttl m,
           key ∈ keys
           /\ redis.Get rdb key = Some resp
           /\ redis.TTL rdb key = Some ttl
           /\ Unpack (String.list_byte_of_string resp) = Some m
           /\ cm = CacheMessage.mk (cleanKey key)
                     (model.mkResponse
                        (if ttl >? 0 then
                           dns.set_Answer
                             (map (dns.set_Ttl (Seconds_uint32 ttl))
                                (dns.Answer m)) m
                         else m)
                        cacheReason model.ResponseTypeCACHED))
  /\ (forall before key after,
         keys = before ++ key :: after ->
         redis.Get rdb key = None \/ redis.TTL rdb key = None
         \/ (exists resp, redis.Get rdb key = Some resp
                          /\ Unpack (String.list_byte_of_string resp) = None) ->
         new = omap (stored_record rdb) before
               ++ omap (stored_record rdb) after).
Proof.
  cbv zeta. split; [|split].
  - unfold GetRedisCache. cbv zeta. rewrite GetRedisCache_scan. reflexivity.
  - intros cm. rewrite list_elem_of_omap. split.
    + intros (key & Hin & Hrec). unfold stored_record in Hrec.
      destruct (redis.Get (Client.client c) key) as [resp|] eqn:Hget;
        [|discriminate].
      destruct (redis.TTL (Client.client c) key) as [ttl|] eqn:Httl;
        [|discriminate].
      destruct (Unpack (String.list_byte_of_string resp)) as [m|] eqn:Hun;
        [|discriminate].
      injection Hrec as <-. now exists key, resp, ttl, m.
    + intros (key & resp & ttl & m & Hin & Hget & Httl & Hun & ->).
      exists key. split; [exact Hin|].
      unfold stored_record. now rewrite Hget, Httl, Hun.
  - intros before key after -> Hfail. rewrite omap_app. f_equal.
    assert (Hnone : stored_record (Client.client c) key = None).
    { unfold stored_record.
      destruct Hfail as [->|[Httl|(resp & -> & Hun)]]; [reflexivity| |].
      - rewrite Httl. now destruct (redis.Get (Client.client c) key).
      - rewrite Hun. now destruct (redis.TTL (Client.client c) key). }
    now rewrite omap_cons_case, Hnone.
Qed.

(** ** Provenance of forwarded records *)

(** The record built by the conversion does not depend on the client
    identifier of the envelope, and always carries the same marker. *)
Lemma convertMessage_marker (rm : redisMessage.t) (ttl : Z)
    (cm : CacheMessage.t) :
  convertMessage rm ttl = Some cm ->
  CacheMessage.Key cm = redisMessage.K rm
  /\ model.RType (CacheMessage.Response cm) = model.ResponseTypeCACHED
  /\ model.Reason (CacheMessage.Response cm) = "EXTERNAL_CACHE".
Proof.
  unfold convertMessage.
  destruct (Unpack (redisMessage.M rm)); [|discriminate].
  intros [= <-]. repeat split.
Qed.

Lemma stored_record_marker (rdb : redis.Client) (key : string)
    (cm : CacheMessage.t) :
  stored_record rdb key = Some cm ->
  model.RType (CacheMessage.Response cm) = model.ResponseTypeCACHED
  /\ model.Reason (CacheMessage.Response cm) = "EXTERNAL_CACHE".
Proof.
  unfold stored_record.
  destruct (redis.Get rdb key); [|discriminate].
  destruct (redis.TTL rdb key); [|discriminate].
  destruct (Unpack _); [|discriminate].
  intros [= <-]. repeat split.
Qed.

(** C9, as the code has it.  The records forwarded by the inbound
    branch and the records forwarded by the bulk loader carry the same
    marker, the response type [ResponseTypeCACHED] and the reason
    ["EXTERNAL_CACHE"]; a record has no field that tells one origin
    from the other. *)
Theorem forwarded_records_same_marker :
  let marked cm :=
    model.RType (CacheMessage.Response cm) = model.ResponseTypeCACHED
    /\ model.Reason (CacheMessage.Response cm) = "EXTERNAL_CACHE" in
  (forall c msg,
      exists new,
        Client.CacheChannel (startup_recv c msg) = Client.CacheChannel c ++ new
        /\ Forall marked new)
  /\ (forall c,
         exists new,
           Client.CacheChannel (GetRedisCache c) = Client.CacheChannel c ++ new
           /\ Forall marked new).
Proof.
  cbv zeta. split.
  - intros c msg. unfold startup_recv.
    assert (Hkeep : exists new,
               Client.CacheChannel c = Client.CacheChannel c ++ new
               /\ Forall (fun cm =>
                    model.RType (CacheMessage.Response cm)
                    = model.ResponseTypeCACHED
                    /\ model.Reason (CacheMessage.Response cm)
                       = "EXTERNAL_CACHE") new)
      by (exists []; split; [now rewrite app_nil_r | constructor]).
    destruct msg as [msg|]; [|exact Hkeep].
    destruct (0 <? String.length (redis.Payload msg))%nat; [|exact Hkeep].
    destruct (json_Unmarshal _) as [rm|]; [|exact Hkeep].
    destruct (negb _); [|exact Hkeep].
    destruct (convertMessage rm 0) as [cm|] eqn:Hcm; [|exact Hkeep].
    exists [cm]. split; [reflexivity|].
    apply Forall_cons_2; [|constructor].
    now destruct (convertMessage_marker rm 0 cm Hcm) as (_ & ? & ?).
  - intros c. eexists. split.
    { unfold GetRedisCache. cbv zeta. rewrite GetRedisCache_scan.
      reflexivity. }
    apply Forall_forall. intros cm Hin.
    apply list_elem_of_omap in Hin as (key & _ & Hrec).
    exact (stored_record_marker _ _ _ Hrec).
Qed.

End BulkLoad.

(** The theorem on the sample store: the key whose value does not
    unpack gives no record, and the keys around it do. *)
Lemma GetRedisCache_yields_witness :
  let c := sample_client (store_server sample_store) sample_id in
  let rdb := Client.client c in
  redis.Scan rdb (prefixKey "*")
  = ["blocky:cache:a"; "blocky:cache:b"] ++ "blocky:cache:bad"
    :: ["blocky:cache:c"]
  /\ (exists resp,
         redis.Get rdb "blocky:cache:bad" = Some resp
         /\ sample_Unpack (String.list_byte_of_string resp) = None)
  /\ Client.CacheChannel (GetRedisCache (codec := sample_codec) c)
     = Client.CacheChannel c
       ++ omap (stored_record (codec := sample_codec) rdb)
            (redis.Scan rdb (prefixKey "*"))
  /\ omap (stored_record (codec := sample_codec) rdb)
       (redis.Scan rdb (prefixKey "*"))
     = omap (stored_record (codec := sample_codec) rdb)
         ["blocky:cache:a"; "blocky:cache:b"]
       ++ omap (stored_record (codec := sample_codec) rdb) ["blocky:cache:c"].
Proof.
  cbv zeta.
  assert (Hbad : exists resp,
             redis.Get (store_server sample_store) "blocky:cache:bad"
             = Some resp
             /\ sample_Unpack (String.list_byte_of_string resp) = None)
    by (eexists; split; [reflexivity | vm_compute; reflexivity]).
  destruct (GetRedisCache_yields (codec := sample_codec)
              (sample_client (store_server sample_store) sample_id))
    as (Hall & _ & Hskip).
  split; [reflexivity|]. split; [exact Hbad|]. split; [exact Hall|].
  apply (Hskip ["blocky:cache:a"; "blocky:cache:b"] "blocky:cache:bad"
           ["blocky:cache:c"] eq_refl).
  right. right. exact Hbad.
Defined.

(** C3 as the specification states it fails on the code: the entry
    ["blocky:cache:b"] has a remaining TTL of 0 and a value that
    unpacks, and the bulk load forwards a record for it, with the TTL
    of 300 it was stored with. *)
Lemma bulk_load_zero_ttl_counterexample :
  let c := sample_client (store_server sample_store) sample_id in
  redis.TTL (Client.client c) "blocky:cache:b" = Some 0
  /\ Client.CacheChannel (GetRedisCache (codec := sample_codec) c)
     = [sample_record "a" [sample_rr "a." 10];
        sample_record "b" [sample_rr "b." 300];
        sample_record "c" [sample_rr "c." 50]].
Proof. cbv zeta. split; [reflexivity | vm_compute; reflexivity]. Qed.

(** C9 as the specification states it fails on the code: the record an
    instance forwards for the broadcast of a peer and the record the
    bulk loader forwards for the entry stored by that publication are
    the same record, so nothing in it tells the two origins apart. *)
Lemma provenance_indistinguishable_counterexample :
  let answer := [sample_rr "example.com." 300] in
  let inbound := sample_client (sample_server true) peer_id in
  let loader :=
    sample_client
      (store_server
         [("blocky:cache:example.com/A",
           (Some (sample_value answer), Some (300 * Second)))])
      peer_id in
  Client.CacheChannel
    (startup_recv (codec := sample_codec) inbound
       (Some (sample_broadcast "example.com/A" answer sample_id)))
  = [sample_record "example.com/A" answer]
  /\ Client.CacheChannel (GetRedisCache (codec := sample_codec) loader)
     = [sample_record "example.com/A" answer].
Proof. cbv zeta. split; vm_compute; reflexivity. Qed.

(** ** The scenario of the specification

    Instance A publishes an answer for ["example.com/A"] with a TTL of
    300 seconds: the store receives the value with a TTL of 300 seconds
    and the channel an envelope carrying the identifier of A.  Instance
    B receives the broadcast and forwards the record; instance A
    receives it too and forwards nothing. *)
Example scenario_publish_and_receive :
  let answer := [sample_rr "example.com." 300] in
  let h : gmap loc dns.Msg := {[ 0%nat := sample_msg answer ]} in
  let A := sample_client (sample_server true) sample_id in
  let B := sample_client (sample_server true) peer_id in
  let env := sample_envelope "example.com/A" answer sample_id in
  let msg := sample_broadcast "example.com/A" answer sample_id in
  (exists A1 h2 A2,
      PublishCache A "example.com/A" (Some 0%nat) = Done A1
      /\ startup_select (codec := sample_codec) h A1 FromSendBuffer
         = Done (h2, A2)
      /\ Client.issued A2
         = [(redis.CmdPublish "blocky_sync" env, true);
            (redis.CmdSet "blocky:cache:example.com/A" (enc_rrs answer)
               (300 * Second), true)])
  /\ Client.CacheChannel (startup_recv (codec := sample_codec) B (Some msg))
     = [sample_record "example.com/A" answer]
  /\ Client.CacheChannel (startup_recv (codec := sample_codec) A (Some msg))
     = [].
Proof.
  cbv zeta. split; [|split; vm_compute; reflexivity].
  eexists _, _, _. split; [reflexivity|]. split.
  - unfold startup_select.
    cbn [Client.enqueue Client.sendBuffer sample_client app].
    apply (startup_send_valid (codec := sample_codec) _ _
             (bufferMessage.mk "example.com/A" (Some 0%nat)) 0%nat
             (sample_msg [sample_rr "example.com." 300]) eq_refl).
    apply lookup_singleton_eq.
  - vm_compute. reflexivity.
Qed.

(** * Further properties of the package *)

(** ** Store keys *)

(** X1.  [prefixKey] is injective: two different keys are never stored
    under the same store key. *)
Theorem prefixKey_injective (k1 k2 : string) :
  prefixKey k1 = prefixKey k2 -> k1 = k2.
Proof.
  unfold prefixKey, Sprintf_ss. intros H.
  rewrite <- (TrimPrefix_app CacheStorePrefix k1), H.
  apply TrimPrefix_app.
Qed.

Lemma prefixKey_injective_witness :
  prefixKey "example.com/A" = prefixKey "example.com/A"
  /\ ("example.com/A" : string) = "example.com/A".
Proof.
  split; [reflexivity|].
  exact (prefixKey_injective "example.com/A" "example.com/A" eq_refl).
Defined.

Lemma substring_split (n : nat) (s : string) :
  (n <= String.length s)%nat ->
  String.substring 0 n s +:+ String.substring n (String.length s - n) s = s.
Proof.
  revert s. induction n as [|n IH]; intros s Hn.
  - rewrite Nat.sub_0_r, substring_whole. now destruct s.
  - destruct s as [|a s]; simpl in *; [lia|].
    change (String a (String.substring 0 n s +:+
                      String.substring n (String.length s - n) s)
            = String a s).
    f_equal. apply IH. lia.
Qed.

(** X2.  [cleanKey] against [prefixKey] in the other direction: a key
    that starts with the store prefix is the prefixed form of its
    cleaned key, and a key that does not start with it is returned as
    it is. *)
Theorem cleanKey_cases (k : string) :
  (HasPrefix k CacheStorePrefix = true -> prefixKey (cleanKey k) = k)
  /\ (HasPrefix k CacheStorePrefix = false -> cleanKey k = k).
Proof.
  unfold cleanKey, TrimPrefix, prefixKey, Sprintf_ss. split; intros H;
    rewrite H; [|reflexivity].
  unfold HasPrefix in H. apply andb_true_iff in H as [Hlen Heq].
  apply Nat.leb_le in Hlen. apply String.eqb_eq in Heq.
  rewrite <- Heq at 1. now apply substring_split.
Qed.

Lemma cleanKey_cases_witness :
  HasPrefix "blocky:cache:a" CacheStorePrefix = true
  /\ prefixKey (cleanKey "blocky:cache:a") = "blocky:cache:a"
  /\ HasPrefix "blocky:other:a" CacheStorePrefix = false
  /\ cleanKey "blocky:other:a" = "blocky:other:a".
Proof.
  split; [reflexivity|]. split.
  - exact (proj1 (cleanKey_cases "blocky:cache:a") eq_refl).
  - split; [reflexivity|].
    exact (proj2 (cleanKey_cases "blocky:other:a") eq_refl).
Defined.

(** ** TTL of a stored entry *)

Lemma getTTL_loop_uint32 (rrs : list dns.RR) (t : Z) :
  is_uint32 t ->
  Forall (fun a => is_uint32 (dns.ttl_of a)) rrs ->
  is_uint32 (getTTL_loop t rrs).
Proof.
  intros Ht Hwf.
  destruct (getTTL_loop_attained rrs t) as [->|(a & Ha & ->)]; [exact Ht|].
  rewrite Forall_forall in Hwf. now apply Hwf.
Qed.

(** The value of [getTTL] in seconds. *)
Lemma getTTL_seconds (m : dns.Msg) :
  Forall (fun a => is_uint32 (dns.ttl_of a)) (dns.Answer m) ->
  getTTL m = Z.max 1 (getTTL_loop 0 (dns.Answer m)) * Second.
Proof.
  intros Hwf. unfold getTTL, defaultCacheTime.
  assert (Ht : is_uint32 (getTTL_loop 0 (dns.Answer m)))
    by (apply getTTL_loop_uint32; [unfold is_uint32; lia | exact Hwf]).
  destruct (Z.eqb_spec (getTTL_loop 0 (dns.Answer m)) 0) as [->|Hne].
  - reflexivity.
  - rewrite wrap64_seconds by exact Ht. unfold is_uint32 in Ht.
    f_equal. lia.
Qed.

(** X3.  For an answer whose record TTLs are [uint32] values, the TTL
    [getTTL] gives to the stored entry is a whole number of seconds, at
    least one second and less than [2^32] seconds: an entry is never
    stored with a TTL of zero or a negative one. *)
Theorem getTTL_positive_seconds (m : dns.Msg) :
  Forall (fun a => is_uint32 (dns.ttl_of a)) (dns.Answer m) ->
  exists k, 1 <= k < 2 ^ 32 /\ getTTL m = k * Second.
Proof.
  intros Hwf. exists (Z.max 1 (getTTL_loop 0 (dns.Answer m))).
  split; [|now apply getTTL_seconds].
  assert (Ht : is_uint32 (getTTL_loop 0 (dns.Answer m)))
    by (apply getTTL_loop_uint32; [unfold is_uint32; lia | exact Hwf]).
  unfold is_uint32 in Ht. lia.
Qed.

Lemma getTTL_positive_seconds_witness :
  Forall (fun a => is_uint32 (dns.ttl_of a))
    (dns.Answer (sample_msg sample_answer))
  /\ exists k, 1 <= k < 2 ^ 32
               /\ getTTL (sample_msg sample_answer) = k * Second.
Proof.
  assert (Hwf : Forall (fun a => is_uint32 (dns.ttl_of a))
                  (dns.Answer (sample_msg sample_answer)))
    by answer_uint32.
  split; [exact Hwf|].
  exact (getTTL_positive_seconds (sample_msg sample_answer) Hwf).
Defined.

Lemma getTTL_loop_perm (rrs1 rrs2 : list dns.RR) :
  rrs1 ≡ₚ rrs2 -> forall t, getTTL_loop t rrs1 = getTTL_loop t rrs2.
Proof.
  induction 1 as [|a l1 l2 _ IH|a b l|l1 l2 l3 _ IH1 _ IH2]; intros t.
  - reflexivity.
  - simpl. apply IH.
  - simpl. f_equal.
    destruct (Z.gtb_spec (dns.ttl_of b) t), (Z.gtb_spec (dns.ttl_of a) t);
      repeat match goal with
             | |- context [?x >? ?y] => destruct (Z.gtb_spec x y)
             end; lia.
  - now rewrite IH1.
Qed.

(** X4.  [getTTL] does not depend on the order of the answer records,
    and it reads the answer section only. *)
Theorem getTTL_order_independent (m1 m2 : dns.Msg) :
  dns.Answer m1 ≡ₚ dns.Answer m2 -> getTTL m1 = getTTL m2.
Proof.
  intros Hp. unfold getTTL. now rewrite (getTTL_loop_perm _ _ Hp 0).
Qed.

Lemma getTTL_order_independent_witness :
  let m1 := sample_msg [sample_rr "a." 60; sample_rr "b." 300] in
  let m2 :=
    dns.mkMsg dns.zeroHdr true [] [sample_rr "b." 300; sample_rr "a." 60]
      [sample_rr "ns." 900] [] in
  dns.Answer m1 ≡ₚ dns.Answer m2 /\ getTTL m1 = getTTL m2.
Proof.
  cbv zeta.
  assert (Hp : [sample_rr "a." 60; sample_rr "b." 300]
               ≡ₚ [sample_rr "b." 300; sample_rr "a." 60])
    by apply Permutation_swap.
  split; [exact Hp|].
  exact (getTTL_order_independent
           (sample_msg [sample_rr "a." 60; sample_rr "b." 300])
           (dns.mkMsg dns.zeroHdr true []
              [sample_rr "b." 300; sample_rr "a." 60]
              [sample_rr "ns." 900] [])
           Hp).
Defined.

(** ** Conversion: what restamping leaves alone *)

Lemma Forall2_restamped (t : Z) (rrs : list dns.RR) :
  Forall2 (fun a' a =>
             rr_same_data a' a
             /\ dns.Rdlength (dns.Header a') = dns.Rdlength (dns.Header a))
    (map (dns.set_Ttl t) rrs) rrs.
Proof.
  induction rrs as [|a rrs IH]; simpl; constructor; [|exact IH].
  unfold rr_same_data; simpl. tauto.
Qed.

Lemma Forall2_same_data_refl (rrs : list dns.RR) :
  Forall2 (fun a' a =>
             rr_same_data a' a
             /\ dns.Rdlength (dns.Header a') = dns.Rdlength (dns.Header a))
    rrs rrs.
Proof.
  induction rrs as [|a rrs IH]; constructor; [|exact IH].
  unfold rr_same_data. tauto.
Qed.

Section ConversionFrame.
Context `{codec : Codec}.

(** X5.  Whatever the remaining TTL, the conversion of a message that
    unpacks keeps the key of the envelope and everything of the
    unpacked message but the TTLs of the answer section: the header,
    the question, authority and additional sections are untouched (the
    TTLs of authority and additional records are never restamped), and
    the answer section keeps its records in number, order, name, type,
    class and data. *)
Theorem convertMessage_frame (rm : redisMessage.t) (ttl : Z) (m : dns.Msg) :
  Unpack (redisMessage.M rm) = Some m ->
  exists cm,
    convertMessage rm ttl = Some cm
    /\ CacheMessage.Key cm = redisMessage.K rm
    /\ let m' := model.Res (CacheMessage.Response cm) in
       dns.Hdr m' = dns.Hdr m
       /\ dns.Compress m' = dns.Compress m
       /\ dns.Questions m' = dns.Questions m
       /\ dns.Ns m' = dns.Ns m
       /\ dns.Extra m' = dns.Extra m
       /\ Forall2 (fun a' a =>
                     rr_same_data a' a
                     /\ dns.Rdlength (dns.Header a')
                        = dns.Rdlength (dns.Header a))
            (dns.Answer m') (dns.Answer m).
Proof.
  intros Hun. eexists. split; [exact (convertMessage_unpacked rm ttl m Hun)|].
  split; [reflexivity|]. cbn [CacheMessage.Response model.Res].
  destruct (ttl >? 0).
  - repeat (split; [reflexivity|]). apply Forall2_restamped.
  - repeat (split; [reflexivity|]). apply Forall2_same_data_refl.
Qed.

(** X6.  An entry read back with the TTL [getTTL] stored it with (the
    answer [m] was published, [m'] is what the stored value unpacks
    to): every answer record of the result carries the stored TTL in
    seconds, which is at least one and at least the TTL of every record
    of [m].  Records published with a shorter TTL come back with the
    longest one. *)
Theorem restamp_with_stored_TTL (rm : redisMessage.t) (m m' : dns.Msg) :
  Forall (fun a => is_uint32 (dns.ttl_of a)) (dns.Answer m) ->
  Unpack (redisMessage.M rm) = Some m' ->
  exists cm t,
    convertMessage rm (getTTL m) = Some cm
    /\ getTTL m = t * Second
    /\ 1 <= t
    /\ Forall (fun a => dns.ttl_of a = t)
         (dns.Answer (model.Res (CacheMessage.Response cm)))
    /\ Forall (fun b => dns.ttl_of b <= t) (dns.Answer m).
Proof.
  intros Hwf Hun.
  pose proof (getTTL_seconds m Hwf) as Hsec.
  assert (Ht : is_uint32 (getTTL_loop 0 (dns.Answer m)))
    by (apply getTTL_loop_uint32; [unfold is_uint32; lia | exact Hwf]).
  unfold is_uint32 in Ht.
  set (t := Z.max 1 (getTTL_loop 0 (dns.Answer m))) in *.
  eexists _, t. split; [exact (convertMessage_unpacked rm _ m' Hun)|].
  split; [exact Hsec|]. split; [lia|]. split.
  - cbn [CacheMessage.Response model.Res].
    assert (Hpos : (getTTL m >? 0) = true)
      by (apply Z.gtb_lt; rewrite Hsec; unfold Second; lia).
    rewrite Hpos. cbn [dns.set_Answer dns.Answer].
    rewrite Hsec, Seconds_uint32_whole by lia.
    apply Forall_ttl_restamped.
  - eapply Forall_impl; [apply (getTTL_loop_bound (dns.Answer m) 0)|].
    intros b Hb. cbn beta in Hb. lia.
Qed.

End ConversionFrame.

Lemma convertMessage_frame_witness :
  let rm := redisMessage.mk "a" (enc_rrs [sample_rr "a." 300]) [] in
  let m := dns.set_Answer [rr_read (sample_rr "a." 300)] dns.zeroMsg in
  sample_Unpack (redisMessage.M rm) = Some m
  /\ exists cm,
      convertMessage (codec := sample_codec) rm (10 * Second) = Some cm
      /\ CacheMessage.Key cm = "a"
      /\ dns.Ns (model.Res (CacheMessage.Response cm)) = dns.Ns m
      /\ dns.Extra (model.Res (CacheMessage.Response cm)) = dns.Extra m.
Proof.
  cbv zeta.
  assert (Hun : sample_Unpack (enc_rrs [sample_rr "a." 300])
                = Some (dns.set_Answer [rr_read (sample_rr "a." 300)]
                          dns.zeroMsg))
    by (vm_compute; reflexivity).
  split; [exact Hun|].
  destruct (convertMessage_frame (codec := sample_codec)
              (redisMessage.mk "a" (enc_rrs [sample_rr "a." 300]) [])
              (10 * Second) _ Hun)
    as (cm & Hcm & Hk & _ & _ & _ & Hns & Hex & _).
  exists cm. repeat split; assumption.
Defined.

Lemma restamp_with_stored_TTL_witness :
  let rm := redisMessage.mk "a" (enc_rrs sample_answer) [] in
  let m := sample_msg sample_answer in
  let m' := dns.set_Answer (map rr_read sample_answer) dns.zeroMsg in
  Forall (fun a => is_uint32 (dns.ttl_of a)) (dns.Answer m)
  /\ sample_Unpack (redisMessage.M rm) = Some m'
  /\ exists cm t,
      convertMessage (codec := sample_codec) rm (getTTL m) = Some cm
      /\ getTTL m = t * Second
      /\ 1 <= t
      /\ Forall (fun a => dns.ttl_of a = t)
           (dns.Answer (model.Res (CacheMessage.Response cm)))
      /\ Forall (fun b => dns.ttl_of b <= t) (dns.Answer m).
Proof.
  cbv zeta.
  assert (Hwf : Forall (fun a => is_uint32 (dns.ttl_of a))
                  (dns.Answer (sample_msg sample_answer)))
    by answer_uint32.
  assert (Hun : sample_Unpack (enc_rrs sample_answer)
                = Some (dns.set_Answer (map rr_read sample_answer)
                          dns.zeroMsg))
    by (vm_compute; reflexivity).
  split; [exact Hwf|]. split; [exact Hun|].
  exact (restamp_with_stored_TTL (codec := sample_codec)
           (redisMessage.mk "a" (enc_rrs sample_answer) [])
           (sample_msg sample_answer) _ Hwf Hun).
Defined.

(** ** The inbound branch: what is forwarded and what is logged *)

Lemma app_singleton_neq {A : Type} (l : list A) (x : A) : l <> l ++ [x].
Proof.
  intros H. apply (f_equal length) in H. rewrite length_app in H.
  cbn in H. lia.
Qed.

Lemma payload_nonempty (s : string) :
  s <> String.EmptyString <-> (0 <? String.length s)%nat = true.
Proof.
  destruct s; cbn; split; try congruence; try discriminate; reflexivity.
Qed.

Section InboundCases.
Context `{codec : Codec}.

(** X7.  The inbound branch touches nothing of the client but the log
    and the consumer channel: no command is sent and no request is
    taken or queued.  It forwards at most one record, and it forwards
    [cm] exactly when the message is not nil, its payload is not empty
    and unmarshals to an envelope with another client identifier, and
    the conversion of the envelope with no remaining TTL gives [cm]. *)
Theorem startup_recv_forwards (c : Client.t) (msg : option redis.Message) :
  let c' := startup_recv c msg in
  Client.client c' = Client.client c
  /\ Client.issued c' = Client.issued c
  /\ Client.id c' = Client.id c
  /\ Client.sendBuffer c' = Client.sendBuffer c
  /\ (Client.CacheChannel c' = Client.CacheChannel c
      \/ exists cm, Client.CacheChannel c' = Client.CacheChannel c ++ [cm])
  /\ forall cm,
      Client.CacheChannel c' = Client.CacheChannel c ++ [cm] <->
      exists m rm,
        msg = Some m
        /\ redis.Payload m <> String.EmptyString
        /\ json_Unmarshal (String.list_byte_of_string (redis.Payload m))
           = Some rm
        /\ redisMessage.C rm <> Client.id c
        /\ convertMessage rm 0 = Some cm.
Proof.
  cbv zeta. unfold startup_recv.
  destruct msg as [m|].
  2:{ repeat (split; [reflexivity|]). split; [now left|].
      intros cm. split.
      - intros H. now apply app_singleton_neq in H.
      - intros (m & rm & [=] & _). }
  destruct (0 <? String.length (redis.Payload m))%nat eqn:Hlen.
  2:{ repeat (split; [reflexivity|]). split; [now left|].
      intros cm. split.
      - intros H. now apply app_singleton_neq in H.
      - intros (m0 & rm & [= <-] & Hne & _).
        apply payload_nonempty in Hne. congruence. }
  apply payload_nonempty in Hlen.
  destruct (json_Unmarshal _) as [rm|] eqn:Hrm.
  2:{ repeat (split; [reflexivity|]). split; [now left|].
      intros cm. split.
      - intros H. now apply app_singleton_neq in H.
      - intros (m0 & rm & [= <-] & _ & Hrm' & _). congruence. }
  cbn [Client.log Client.id].
  destruct (Z.eqb_spec (bytes_Compare (redisMessage.C rm) (Client.id c)) 0)
    as [Heq|Hne]; cbn [negb].
  { apply bytes_Compare_eq in Heq.
    repeat (split; [reflexivity|]). split; [now left|].
    intros cm. split.
    - intros H. now apply app_singleton_neq in H.
    - intros (m0 & rm0 & [= <-] & _ & Hrm' & Hid & _).
      rewrite Hrm in Hrm'. injection Hrm' as <-. contradiction. }
  assert (Hid : redisMessage.C rm <> Client.id c)
    by (intros He; apply Hne, bytes_Compare_eq, He).
  destruct (convertMessage rm 0) as [cm0|] eqn:Hcm.
  - repeat (split; [reflexivity|]). split; [right; now exists cm0|].
    intros cm. cbn [Client.forward Client.CacheChannel]. split.
    + intros H. apply app_inv_head in H. injection H as <-.
      now exists m, rm.
    + intros (m0 & rm0 & [= <-] & _ & Hrm' & _ & Hcm').
      rewrite Hrm in Hrm'. injection Hrm' as <-.
      rewrite Hcm in Hcm'. injection Hcm' as <-. reflexivity.
  - repeat (split; [reflexivity|]). split; [now left|].
    intros cm. split.
    + intros H. now apply app_singleton_neq in H.
    + intros (m0 & rm0 & [= <-] & _ & Hrm' & _ & Hcm').
      rewrite Hrm in Hrm'. injection Hrm' as <-. congruence.
Qed.

(** X8.  The inbound branch always logs the debug line, and after it
    one error line exactly when a non-empty payload does not unmarshal.
    A payload that unmarshals but whose answer does not unpack is
    dropped without any error line. *)
Theorem startup_recv_log (c : Client.t) (msg : option redis.Message) :
  exists extra,
    Client.l (startup_recv c msg)
    = Client.l c ++ LogDebug "Received message: " :: extra
    /\ (extra = [] \/ extra = [LogError "Conversion error: "])
    /\ (extra = [LogError "Conversion error: "] <->
        exists m,
          msg = Some m
          /\ redis.Payload m <> String.EmptyString
          /\ json_Unmarshal (String.list_byte_of_string (redis.Payload m))
             = None).
Proof.
  unfold startup_recv.
  destruct msg as [m|].
  2:{ exists []. split; [reflexivity|]. split; [now left|].
      split; [discriminate | intros (m & [=] & _)]. }
  destruct (0 <? String.length (redis.Payload m))%nat eqn:Hlen.
  2:{ exists []. split; [reflexivity|]. split; [now left|].
      split; [discriminate|].
      intros (m0 & [= <-] & Hne & _). apply payload_nonempty in Hne.
      congruence. }
  apply payload_nonempty in Hlen.
  destruct (json_Unmarshal _) as [rm|] eqn:Hrm.
  - exists []. split.
    + destruct (negb _); [|reflexivity].
      now destruct (convertMessage rm 0).
    + split; [now left|]. split; [discriminate|].
      intros (m0 & [= <-] & _ & Hrm'). congruence.
  - exists [LogError "Conversion error: "]. split.
    + cbn [Client.log Client.l]. now rewrite <- app_assoc.
    + split; [now right|]. split; [|reflexivity].
      intros _. now exists m.
Qed.

End InboundCases.

(** ** From a publication to the peers *)

Lemma string_of_bytes_nonempty (b : bytes) :
  b <> [] -> String.string_of_list_byte b <> String.EmptyString.
Proof.
  intros Hb He. apply Hb.
  rewrite <- (String.list_byte_of_string_of_list_byte b), He. reflexivity.
Qed.

Section Delivery.
Context `{codec : Codec}.

Hypothesis json_roundtrip : forall rm b,
  json_Marshal rm = Some b -> json_Unmarshal b = Some rm.
Hypothesis dns_roundtrip : forall m b,
  Pack m = Some b ->
  exists m', Unpack b = Some m'
             /\ Forall2 dns.rr_equiv (dns.Answer m') (dns.Answer m).

(** X9.  With lossless codecs, when the outbound iteration of an
    instance broadcasts a non-empty envelope for a request, the payload
    received from the channel makes an instance with another identifier
    forward exactly one more record, with the key of the request and
    answer records equivalent to the published ones, while the
    publishing instance, when it receives its own broadcast, forwards
    nothing. *)
Theorem broadcast_delivery (h : gmap loc dns.Msg) (c0 peer : Client.t)
    (key : string) (p : loc) (m : dns.Msg) (binRes binMsg : bytes) :
  h !! p = Some m ->
  Pack (dns.set_Compress true m) = Some binRes ->
  json_Marshal (redisMessage.mk key binRes (Client.id c0)) = Some binMsg ->
  binMsg <> [] ->
  Client.id peer <> Client.id c0 ->
  let msg :=
    redis.mkMessage CacheChannelName String.EmptyString
      (String.string_of_list_byte binMsg) in
  exists h2 c2 cm,
    startup_send h c0 (bufferMessage.mk key (Some p)) = Done (h2, c2)
    /\ (redis.CmdPublish CacheChannelName binMsg,
        redis.Publish (Client.client c0) CacheChannelName binMsg)
       ∈ Client.issued c2
    /\ Client.CacheChannel (startup_recv peer (Some msg))
       = Client.CacheChannel peer ++ [cm]
    /\ CacheMessage.Key cm = key
    /\ Forall2 dns.rr_equiv
         (dns.Answer (model.Res (CacheMessage.Response cm))) (dns.Answer m)
    /\ Client.CacheChannel (startup_recv c2 (Some msg))
       = Client.CacheChannel c2.
Proof.
  intros Hm Hpack Hjson Hne Hid msg.
  destruct (dns_roundtrip _ _ Hpack) as (m' & Hun & Heq).
  assert (Hpay : redis.Payload msg <> String.EmptyString)
    by (apply string_of_bytes_nonempty, Hne).
  assert (Hrm : json_Unmarshal
                  (String.list_byte_of_string (redis.Payload msg))
                = Some (redisMessage.mk key binRes (Client.id c0))).
  { cbn [msg redis.Payload].
    rewrite String.list_byte_of_string_of_list_byte.
    apply json_roundtrip, Hjson. }
  assert (Hcm : convertMessage (redisMessage.mk key binRes (Client.id c0)) 0
                = Some (CacheMessage.mk key
                          (model.mkResponse m' cacheReason
                             model.ResponseTypeCACHED)))
    by (unfold convertMessage; cbn [redisMessage.M redisMessage.K];
        now rewrite Hun).
  eexists _, _, _. split.
  { rewrite (startup_send_valid h c0 (bufferMessage.mk key (Some p)) p m
               eq_refl Hm).
    cbn [bufferMessage.Key]. rewrite Hpack. cbn beta iota. rewrite Hjson.
    reflexivity. }
  split.
  { cbn [Client.do_Set Client.do_Publish Client.issued Client.client].
    rewrite elem_of_app. left. rewrite elem_of_app. right.
    apply list_elem_of_here. }
  split.
  { rewrite (startup_recv_decoded peer msg _ Hpay Hrm). cbn zeta.
    cbn [Client.log Client.id redisMessage.C].
    rewrite decide_False by (intros He; apply Hid; now rewrite He).
    rewrite Hcm. reflexivity. }
  split; [reflexivity|]. split; [exact Heq|].
  rewrite (startup_recv_decoded _ msg _ Hpay Hrm). cbn zeta.
  cbn [Client.log Client.id Client.do_Set Client.do_Publish redisMessage.C].
  rewrite decide_True by reflexivity. reflexivity.
Qed.

End Delivery.

Lemma broadcast_delivery_witness :
  let c0 := sample_client (sample_server true) sample_id in
  let peer := sample_client (sample_server true) peer_id in
  let binRes := enc_rrs sample_answer in
  let binMsg := sample_envelope "example.com/A" sample_answer sample_id in
  let msg :=
    redis.mkMessage CacheChannelName String.EmptyString
      (String.string_of_list_byte binMsg) in
  sample_heap !! 0%nat = Some (sample_msg sample_answer)
  /\ sample_Pack (dns.set_Compress true (sample_msg sample_answer))
     = Some binRes
  /\ sample_Marshal (redisMessage.mk "example.com/A" binRes (Client.id c0))
     = Some binMsg
  /\ binMsg <> []
  /\ Client.id peer <> Client.id c0
  /\ exists h2 c2 cm,
      startup_send (codec := sample_codec) sample_heap c0 sample_request
      = Done (h2, c2)
      /\ (redis.CmdPublish CacheChannelName binMsg,
          redis.Publish (Client.client c0) CacheChannelName binMsg)
         ∈ Client.issued c2
      /\ Client.CacheChannel
           (startup_recv (codec := sample_codec) peer (Some msg))
         = Client.CacheChannel peer ++ [cm]
      /\ CacheMessage.Key cm = "example.com/A"
      /\ Forall2 dns.rr_equiv
           (dns.Answer (model.Res (CacheMessage.Response cm)))
           (dns.Answer (sample_msg sample_answer))
      /\ Client.CacheChannel
           (startup_recv (codec := sample_codec) c2 (Some msg))
         = Client.CacheChannel c2.
Proof.
  cbv zeta.
  assert (Hne : sample_envelope "example.com/A" sample_answer sample_id <> [])
    by (vm_compute; discriminate).
  assert (Hid : Client.id (sample_client (sample_server true) peer_id)
                <> Client.id (sample_client (sample_server true) sample_id))
    by (vm_compute; discriminate).
  split; [exact sample_heap_0|]. split; [reflexivity|]. split; [reflexivity|].
  split; [exact Hne|]. split; [exact Hid|].
  exact (broadcast_delivery (codec := sample_codec)
           sample_Unmarshal_Marshal sample_Unpack_Pack sample_heap
           (sample_client (sample_server true) sample_id)
           (sample_client (sample_server true) peer_id)
           "example.com/A" 0%nat (sample_msg sample_answer)
           (enc_rrs sample_answer)
           (sample_envelope "example.com/A" sample_answer sample_id)
           sample_heap_0 eq_refl eq_refl Hne Hid).
Defined.

(** ** The outbound branch: the commands it sends *)

Lemma set_Compress_idem (b : bool) (m : dns.Msg) :
  dns.set_Compress b (dns.set_Compress b m) = dns.set_Compress b m.
Proof. reflexivity. Qed.

Lemma getTTL_set_Compress (b : bool) (m : dns.Msg) :
  getTTL (dns.set_Compress b m) = getTTL m.
Proof. reflexivity. Qed.

Section OutboundCommands.
Context `{codec : Codec}.

(** The outbound branch on a valid request: the new heap, and the
    commands sent, those of the request in the heap before. *)
Lemma startup_send_issued (h : gmap loc dns.Msg) (c : Client.t)
    (s : bufferMessage.t) :
  valid_request h s ->
  exists p m c',
    bufferMessage.Message s = Some p
    /\ h !! p = Some m
    /\ startup_send h c s
       = Done (<[p := after_Pack (dns.set_Compress true m)]> h, c')
    /\ Client.issued c' =
       Client.issued c
       ++ queued_commands (Client.client c) (Client.id c) h s
    /\ Client.client c' = Client.client c
    /\ Client.id c' = Client.id c
    /\ Client.l c' = Client.l c
    /\ Client.sendBuffer c' = Client.sendBuffer c
    /\ Client.CacheChannel c' = Client.CacheChannel c.
Proof.
  intros (p & Hp & [m Hm]). exists p, m.
  rewrite (startup_send_valid h c s p m Hp Hm).
  unfold queued_commands, request_commands. rewrite Hp, Hm.
  eexists. split; [reflexivity|]. split; [reflexivity|].
  split; [reflexivity|].
  destruct (Pack (dns.set_Compress true m)) as [binRes|].
  - destruct (json_Marshal _) as [binMsg|];
      cbn [Client.do_Set Client.do_Publish Client.issued Client.client
           Client.id Client.l Client.sendBuffer Client.CacheChannel].
    + rewrite <- app_assoc. repeat split.
    + repeat split.
  - rewrite app_nil_r. repeat split.
Qed.

(** X10.  What one outbound iteration does for a valid request whose
    answer has [uint32] TTLs.  It leaves the caller's message with
    [Compress] set and its answer section as it was.  It sends nothing
    at all when the answer does not pack.  Otherwise the store write
    comes last, under the prefixed key of the request, with the packed
    answer as value and a TTL that is a whole number of seconds, at
    least one; before it at most one broadcast, on the channel
    ["blocky_sync"], whose envelope marshals the key, the same packed
    answer and the identifier of the client. *)
Theorem startup_send_commands (h : gmap loc dns.Msg) (c : Client.t)
    (s : bufferMessage.t) (p : loc) (m : dns.Msg) :
  bufferMessage.Message s = Some p ->
  h !! p = Some m ->
  Forall (fun a => is_uint32 (dns.ttl_of a)) (dns.Answer m) ->
  exists h' c' m' new,
    startup_send h c s = Done (h', c')
    /\ h' !! p = Some m'
    /\ dns.Compress m' = true
    /\ dns.Answer m' = dns.Answer m
    /\ Client.issued c' = Client.issued c ++ new
    /\ (Pack (dns.set_Compress true m) = None -> new = [])
    /\ forall binRes,
        Pack (dns.set_Compress true m) = Some binRes ->
        exists pubs k okS,
          new = pubs
                ++ [(redis.CmdSet (prefixKey (bufferMessage.Key s)) binRes
                       (k * Second), okS)]
          /\ 1 <= k < 2 ^ 32
          /\ (pubs = []
              \/ exists binMsg okP,
                  pubs = [(redis.CmdPublish "blocky_sync" binMsg, okP)]
                  /\ json_Marshal
                       (redisMessage.mk (bufferMessage.Key s) binRes
                          (Client.id c))
                     = Some binMsg).
Proof.
  intros Hp Hm Hwf.
  assert (Hloop : is_uint32 (getTTL_loop 0 (dns.Answer m)))
    by (apply getTTL_loop_uint32; [unfold is_uint32; lia | exact Hwf]).
  pose proof (getTTL_seconds m Hwf) as Httl.
  set (k := Z.max 1 (getTTL_loop 0 (dns.Answer m))) in *.
  assert (Hk : 1 <= k < 2 ^ 32) by (unfold is_uint32 in Hloop; lia).
  rewrite (startup_send_valid h c s p m Hp Hm).
  destruct (Pack (dns.set_Compress true m)) as [binRes|].
  - destruct (json_Marshal _) as [binMsg|] eqn:Hj;
      eexists _, _, _, _; (split; [reflexivity|]);
      (split; [apply lookup_insert_eq|]);
      (split; [reflexivity|]); (split; [reflexivity|]);
      cbn [Client.do_Set Client.do_Publish Client.issued Client.client].
    + split; [rewrite <- app_assoc; reflexivity|].
      split; [discriminate|]. intros ? [= <-].
      eexists [_], k, _. rewrite getTTL_set_Compress, Httl.
      split; [reflexivity|]. split; [exact Hk|].
      right. eexists _, _. split; [reflexivity | exact Hj].
    + split; [reflexivity|]. split; [discriminate|]. intros ? [= <-].
      eexists [], k, _. rewrite getTTL_set_Compress, Httl.
      split; [reflexivity|]. split; [exact Hk|]. now left.
  - exists (<[p := after_Pack (dns.set_Compress true m)]> h), c,
      (after_Pack (dns.set_Compress true m)), [].
    split; [reflexivity|]. split; [apply lookup_insert_eq|].
    split; [reflexivity|]. split; [reflexivity|].
    split; [symmetry; apply app_nil_r|]. split; [reflexivity|].
    discriminate.
Qed.



End OutboundCommands.

Section OutboundOrder.
Context `{codec : Codec}.


(** X12.  Backpressure of [PublishCache].  A request with a non-empty
    key and a non-nil message is never dropped: the call is suspended
    exactly when the buffer holds [chanCap] requests or more, and
    otherwise it returns with the request added behind those already
    queued and nothing else changed. *)
Theorem PublishCache_backpressure (c : Client.t) (key : string) (p : loc) :
  key <> String.EmptyString ->
  (PublishCache c key (Some p) = Blocked <->
   (chanCap <= length (Client.sendBuffer c))%nat)
  /\ PublishCache c key (Some p) <> Done c
  /\ forall c',
      PublishCache c key (Some p) = Done c' ->
      Client.sendBuffer c'
      = Client.sendBuffer c ++ [bufferMessage.mk key (Some p)]
      /\ Client.client c' = Client.client c
      /\ Client.issued c' = Client.issued c
      /\ Client.l c' = Client.l c
      /\ Client.id c' = Client.id c
      /\ Client.CacheChannel c' = Client.CacheChannel c.
Proof.
  intros Hk.
  destruct (Nat.ltb_spec (length (Client.sendBuffer c)) chanCap) as [Hlt|Hge].
  - rewrite (PublishCache_valid c key p Hk Hlt). split; [|split].
    + split; [discriminate | lia].
    + intros [= H]. apply (f_equal Client.sendBuffer) in H.
      cbn [Client.enqueue Client.sendBuffer] in H.
      symmetry in H. now apply app_singleton_neq in H.
    + intros c' [= <-]. repeat split.
  - assert (Hb : PublishCache c key (Some p) = Blocked).
    { unfold PublishCache.
      apply payload_nonempty in Hk. rewrite Hk.
      rewrite bool_decide_true by discriminate. cbn [andb].
      apply Nat.ltb_ge in Hge. now rewrite Hge. }
    rewrite Hb. split; [|split]; [tauto | discriminate | discriminate].
Qed.

End OutboundOrder.


Lemma PublishCache_backpressure_witness :
  let c := sample_client (sample_server true) sample_id in
  let full :=
    Client.set_sendBuffer (replicate chanCap sample_request) c in
  ("example.com/A" : string) <> String.EmptyString
  /\ PublishCache c "example.com/A" (Some 0%nat) <> Done c
  /\ PublishCache full "example.com/A" (Some 0%nat) = Blocked.
Proof.
  cbv zeta.
  assert (Hk : ("example.com/A" : string) <> String.EmptyString)
    by discriminate.
  split; [exact Hk|]. split.
  - exact (proj1 (proj2 (PublishCache_backpressure
                           (sample_client (sample_server true) sample_id)
                           "example.com/A" 0%nat Hk))).
  - apply (PublishCache_backpressure
             (Client.set_sendBuffer (replicate chanCap sample_request)
                (sample_client (sample_server true) sample_id))
             "example.com/A" 0%nat Hk).
    cbn [Client.set_sendBuffer Client.sendBuffer].
    rewrite length_replicate. lia.
Defined.

Lemma startup_send_commands_witness :
  let c := sample_client (sample_server true) sample_id in
  bufferMessage.Message sample_request = Some 0%nat
  /\ sample_heap !! 0%nat = Some (sample_msg sample_answer)
  /\ Forall (fun a => is_uint32 (dns.ttl_of a))
       (dns.Answer (sample_msg sample_answer))
  /\ exists h' c' m' new,
      startup_send (codec := sample_codec) sample_heap c sample_request
      = Done (h', c')
      /\ h' !! 0%nat = Some m'
      /\ dns.Compress m' = true
      /\ dns.Answer m' = sample_answer
      /\ Client.issued c' = Client.issued c ++ new.
Proof.
  cbv zeta.
  assert (Hwf : Forall (fun a => is_uint32 (dns.ttl_of a))
                  (dns.Answer (sample_msg sample_answer)))
    by answer_uint32.
  split; [reflexivity|]. split; [exact sample_heap_0|]. split; [exact Hwf|].
  destruct (startup_send_commands (codec := sample_codec) sample_heap
              (sample_client (sample_server true) sample_id)
              sample_request 0%nat (sample_msg sample_answer)
              eq_refl sample_heap_0 Hwf)
    as (h' & c' & m' & new & Hstep & Hh & Hc & Ha & Hiss & _).
  now exists h', c', m', new.
Defined.

(** ** Invariants of the running client *)

Section Invariants.
Context `{codec : Codec}.

Lemma GetRedisCache_body_frame (c : Client.t) (key : string) :
  let c' := GetRedisCache_body c key in
  Client.client c' = Client.client c
  /\ Client.issued c' = Client.issued c
  /\ Client.id c' = Client.id c
  /\ Client.sendBuffer c' = Client.sendBuffer c
  /\ (exists lines, Client.l c' = Client.l c ++ lines)
  /\ exists cms, Client.CacheChannel c' = Client.CacheChannel c ++ cms.
Proof.
  cbv zeta. rewrite GetRedisCache_body_spec.
  destruct (stored_record (Client.client c) key) as [cm|];
    cbn [Client.forward Client.log Client.client Client.issued Client.id
         Client.sendBuffer Client.l Client.CacheChannel].
  - repeat (split; [reflexivity|]). split.
    + exists []. now rewrite app_nil_r.
    + now exists [cm].
  - repeat (split; [reflexivity|]). split.
    + eexists. rewrite <- app_assoc. reflexivity.
    + exists []. now rewrite app_nil_r.
Qed.

Lemma GetRedisCache_frame (c : Client.t) :
  let c' := GetRedisCache c in
  Client.client c' = Client.client c
  /\ Client.issued c' = Client.issued c
  /\ Client.id c' = Client.id c
  /\ Client.sendBuffer c' = Client.sendBuffer c
  /\ (exists lines, Client.l c' = Client.l c ++ lines)
  /\ exists cms, Client.CacheChannel c' = Client.CacheChannel c ++ cms.
Proof.
  cbv zeta. unfold GetRedisCache. cbv zeta.
  set (keys := redis.Scan _ _). clearbody keys.
  set (c0 := Client.log (LogDebug "GetRedisCache") c).
  assert (H0 : Client.client c0 = Client.client c
               /\ Client.issued c0 = Client.issued c
               /\ Client.id c0 = Client.id c
               /\ Client.sendBuffer c0 = Client.sendBuffer c
               /\ (exists lines, Client.l c0 = Client.l c ++ lines)
               /\ exists cms,
                   Client.CacheChannel c0 = Client.CacheChannel c ++ cms).
  { repeat (split; [reflexivity|]). split.
    - now eexists.
    - exists []. now rewrite app_nil_r. }
  clearbody c0. revert c0 H0.
  induction keys as [|key keys IH]; intros c0 H0; [exact H0|].
  cbn [fold_left]. apply IH.
  destruct H0 as (H1 & H2 & H3 & H4 & (lines & H5) & (cms & H6)).
  destruct (GetRedisCache_body_frame c0 key)
    as (G1 & G2 & G3 & G4 & (lines' & G5) & (cms' & G6)).
  rewrite G1, G2, G3, G4, G5, G6, H1, H2, H3, H4, H5, H6.
  repeat (split; [reflexivity|]). split.
  - exists (lines ++ lines'). now rewrite app_assoc.
  - exists (cms ++ cms'). now rewrite app_assoc.
Qed.

(** What every transition keeps: the queue invariant, the identifier
    and the handle of the client; and the log, the commands sent and
    the records forwarded only grow at their end. *)
Lemma sys_step_keeps (h h' : gmap loc dns.Msg) (c c' : Client.t) :
  sys_step (h, c) (h', c') ->
  queue_ok h c ->
  queue_ok h' c'
  /\ Client.id c' = Client.id c
  /\ Client.client c' = Client.client c
  /\ Client.l c `prefix_of` Client.l c'
  /\ Client.issued c `prefix_of` Client.issued c'
  /\ Client.CacheChannel c `prefix_of` Client.CacheChannel c'.
Proof.
  intros Hstep (Hlen & Hv & Hk).
  inversion Hstep as [h0 c0 key message c0' Hlive Hpub
                     |h0 c0 r h0' c0' Hsel
                     |h0 c0
                     |h0 h0' c0 Hlive]; subst.
  - (* PublishCache *)
    unfold PublishCache in Hpub.
    destruct (0 <? String.length key)%nat eqn:Hkey;
      [|injection Hpub as <-; repeat split; auto].
    destruct message as [p|].
    2:{ rewrite bool_decide_false in Hpub by (intros H; now apply H).
        injection Hpub as <-. repeat split; auto. }
    rewrite bool_decide_true in Hpub by discriminate. cbn [andb] in Hpub.
    destruct (Nat.ltb_spec (length (Client.sendBuffer c)) chanCap)
      as [Hlt|Hge]; [|discriminate].
    injection Hpub as <-.
    cbn [Client.enqueue Client.sendBuffer Client.id Client.client Client.l
         Client.issued Client.CacheChannel].
    split; [|repeat split; reflexivity].
    unfold queue_ok. cbn [Client.enqueue Client.sendBuffer]. split; [|split].
    + rewrite length_app. cbn. lia.
    + apply Forall_app. split; [exact Hv|].
      apply Forall_cons_2; [|apply Forall_nil_2].
      exists p. split; [reflexivity | now apply Hlive].
    + apply Forall_app. split; [exact Hk|].
      apply Forall_cons_2; [|apply Forall_nil_2].
      cbn. now apply payload_nonempty.
  - (* one iteration of the loop *)
    destruct r as [msg|]; cbn [startup_select] in Hsel.
    + injection Hsel as <- <-.
      assert (Hl : exists lines,
                 Client.l (startup_recv c msg) = Client.l c ++ lines).
      { unfold startup_recv. destruct msg as [m|]; [|now eexists].
        destruct (0 <? _)%nat; [|now eexists].
        destruct (json_Unmarshal _) as [rm|].
        - destruct (negb _); [|now eexists].
          destruct (convertMessage rm 0); now eexists.
        - cbn [Client.log Client.l]. rewrite <- app_assoc. now eexists. }
      assert (Hc : exists cms,
                 Client.CacheChannel (startup_recv c msg)
                 = Client.CacheChannel c ++ cms
                 /\ Client.id (startup_recv c msg) = Client.id c
                 /\ Client.client (startup_recv c msg) = Client.client c
                 /\ Client.issued (startup_recv c msg) = Client.issued c
                 /\ Client.sendBuffer (startup_recv c msg)
                    = Client.sendBuffer c).
      { unfold startup_recv.
        assert (Hsame : exists cms,
                   Client.CacheChannel c = Client.CacheChannel c ++ cms)
          by (exists []; now rewrite app_nil_r).
        destruct Hsame as (nil' & Hsame).
        destruct msg as [m|]; [|now exists nil'].
        destruct (0 <? _)%nat; [|now exists nil'].
        destruct (json_Unmarshal _) as [rm|]; [|now exists nil'].
        destruct (negb _); [|now exists nil'].
        destruct (convertMessage rm 0) as [cm|]; [|now exists nil'].
        now exists [cm]. }
      destruct Hl as (lines & Hl).
      destruct Hc as (cms & Hc & Hid & Hcl & Hiss & Hq).
      split; [unfold queue_ok; now rewrite Hq|].
      rewrite Hid, Hcl, Hiss, Hl, Hc.
      repeat split; try reflexivity; now apply prefix_app_r.
    + destruct (Client.sendBuffer c) as [|s q] eqn:Hq; [discriminate|].
      apply Forall_cons in Hv as [Hs Hv]. apply Forall_cons in Hk as [_ Hk].
      destruct (startup_send_issued h (Client.set_sendBuffer q c) s Hs)
        as (p & m & c1 & _ & _ & Hsend & Hiss & Hcl & Hid & Hl & Hq1 & Hch).
      rewrite Hsend in Hsel. injection Hsel as <- <-.
      split.
      { unfold queue_ok. rewrite Hq1. cbn [Client.set_sendBuffer
                                             Client.sendBuffer].
        cbn [length] in Hlen. split; [lia|]. split; [|exact Hk].
        eapply Forall_impl; [exact Hv|].
        intros s'. apply valid_request_insert. }
      rewrite Hid, Hcl, Hl, Hch, Hiss.
      repeat split; try reflexivity. now apply prefix_app_r.
  - (* bulk load *)
    destruct (GetRedisCache_frame c)
      as (G1 & G2 & G3 & G4 & (lines & G5) & (cms & G6)).
    split; [unfold queue_ok; now rewrite G4|].
    rewrite G1, G2, G3, G5, G6.
    repeat split; try reflexivity; now apply prefix_app_r.
  - (* the caller *)
    split; [|repeat split; reflexivity].
    unfold queue_ok. split; [exact Hlen|]. split; [|exact Hk].
    eapply Forall_impl; [exact Hv|].
    intros s (p & Hp & Hs). exists p. split; [exact Hp | now apply Hlive].
Qed.

Lemma rtc_sys_step_keeps (st st' : gmap loc dns.Msg * Client.t) :
  rtc sys_step st st' ->
  queue_ok st.1 st.2 ->
  queue_ok st'.1 st'.2
  /\ Client.id st'.2 = Client.id st.2
  /\ Client.client st'.2 = Client.client st.2
  /\ Client.l st.2 `prefix_of` Client.l st'.2
  /\ Client.issued st.2 `prefix_of` Client.issued st'.2
  /\ Client.CacheChannel st.2 `prefix_of` Client.CacheChannel st'.2.
Proof.
  induction 1 as [st|[h c] [h1 c1] st' Hstep _ IH]; intros Hok.
  - split; [exact Hok|]. repeat split; reflexivity.
  - destruct (sys_step_keeps h h1 c c1 Hstep Hok)
      as (Hok1 & Hid & Hcl & Hl & Hiss & Hch).
    destruct (IH Hok1) as (Hok' & Hid' & Hcl' & Hl' & Hiss' & Hch').
    cbn [fst snd] in *. split; [exact Hok'|].
    rewrite Hid', Hcl'. repeat split; try assumption; etransitivity; eauto.
Qed.

Lemma queue_ok_empty (h : gmap loc dns.Msg) (c : Client.t) :
  Client.sendBuffer c = [] -> queue_ok h c.
Proof.
  intros Hq. unfold queue_ok. rewrite Hq. cbn. unfold chanCap.
  split; [lia|]. split; constructor.
Qed.

(** X13.  Safety of the running client.  In every state reached from a
    client with an empty buffer by calls of [PublishCache], iterations
    of the loop, bulk loads and steps of the caller that keep live
    messages live, the buffer holds at most [chanCap] requests, each
    with a non-empty key and a live message, and no iteration of the
    loop panics. *)
Theorem reachable_safe (h h' : gmap loc dns.Msg) (c c' : Client.t) :
  Client.sendBuffer c = [] ->
  rtc sys_step (h, c) (h', c') ->
  queue_ok h' c' /\ forall r, startup_select h' c' r <> Panic.
Proof.
  intros Hq Hreach.
  destruct (rtc_sys_step_keeps _ _ Hreach (queue_ok_empty h c Hq))
    as (Hok & _). cbn [fst snd] in Hok.
  split; [exact Hok|]. intros [msg|]; cbn [startup_select]; [discriminate|].
  destruct Hok as (_ & Hv & _).
  destruct (Client.sendBuffer c') as [|s q]; [discriminate|].
  apply Forall_cons in Hv as [Hs _].
  destruct (startup_send_issued h' (Client.set_sendBuffer q c') s Hs)
    as (p & m & c1 & _ & _ & Hsend & _).
  rewrite Hsend. discriminate.
Qed.

(** X14.  Over any such run the identifier of the client and its
    connection handle never change, and the log, the commands sent to
    the broker and the records forwarded to the consumer only grow at
    their end: nothing forwarded or sent is ever withdrawn or
    reordered. *)
Theorem reachable_append_only (h h' : gmap loc dns.Msg) (c c' : Client.t) :
  Client.sendBuffer c = [] ->
  rtc sys_step (h, c) (h', c') ->
  Client.id c' = Client.id c
  /\ Client.client c' = Client.client c
  /\ Client.l c `prefix_of` Client.l c'
  /\ Client.issued c `prefix_of` Client.issued c'
  /\ Client.CacheChannel c `prefix_of` Client.CacheChannel c'.
Proof.
  intros Hq Hreach.
  destruct (rtc_sys_step_keeps _ _ Hreach (queue_ok_empty h c Hq))
    as (_ & H). exact H.
Qed.

End Invariants.

Lemma sample_publish_step :
  rtc (sys_step (codec := sample_codec))
    (sample_heap, sample_client (sample_server true) sample_id)
    (sample_heap,
     Client.enqueue sample_request
       (sample_client (sample_server true) sample_id)).
Proof.
  apply rtc_once.
  apply (step_PublishCache sample_heap _ "example.com/A" (Some 0%nat)).
  - intros p [= <-]. rewrite sample_heap_0. eauto.
  - reflexivity.
Qed.

Lemma reachable_safe_witness :
  let c := sample_client (sample_server true) sample_id in
  let c1 := Client.enqueue sample_request c in
  Client.sendBuffer c = []
  /\ rtc (sys_step (codec := sample_codec)) (sample_heap, c) (sample_heap, c1)
  /\ queue_ok sample_heap c1
  /\ forall r,
      startup_select (codec := sample_codec) sample_heap c1 r <> Panic.
Proof.
  cbv zeta. split; [reflexivity|]. split; [exact sample_publish_step|].
  exact (reachable_safe (codec := sample_codec) sample_heap sample_heap
           (sample_client (sample_server true) sample_id) _ eq_refl
           sample_publish_step).
Defined.

Lemma reachable_append_only_witness :
  let c := sample_client (sample_server true) sample_id in
  let c1 := Client.enqueue sample_request c in
  Client.sendBuffer c = []
  /\ rtc (sys_step (codec := sample_codec)) (sample_heap, c) (sample_heap, c1)
  /\ Client.id c1 = Client.id c
  /\ Client.client c1 = Client.client c
  /\ Client.l c `prefix_of` Client.l c1
  /\ Client.issued c `prefix_of` Client.issued c1
  /\ Client.CacheChannel c `prefix_of` Client.CacheChannel c1.
Proof.
  cbv zeta. split; [reflexivity|]. split; [exact sample_publish_step|].
  exact (reachable_append_only (codec := sample_codec) sample_heap sample_heap
           (sample_client (sample_server true) sample_id) _ eq_refl
           sample_publish_step).
Defined.

(** ** The bulk loader: every key is accounted for *)

Section BulkLoadAccount.
Context `{codec : Codec}.

Lemma GetRedisCache_scan_account (keys : list string) :
  forall c : Client.t,
    exists errors,
      Client.l (fold_left GetRedisCache_body keys c) = Client.l c ++ errors
      /\ Forall (fun e => e = LogError "Conversion error: "
                          \/ e = LogError "GetRedisCache ") errors
      /\ (length errors
          + 2 * length (omap (stored_record (Client.client c)) keys)
          = 2 * length keys)%nat.
Proof.
  induction keys as [|key keys IH]; intros c; cbn [fold_left].
  - exists []. rewrite app_nil_r. repeat split. constructor.
  - destruct (IH (GetRedisCache_body c key)) as (errors & Hl & Hall & Hlen).
    rewrite GetRedisCache_body_client in Hlen.
    rewrite Hl, GetRedisCache_body_spec, omap_cons_case.
    destruct (stored_record (Client.client c) key) as [cm|];
      cbn [Client.forward Client.log Client.l].
    + exists errors. split; [reflexivity|]. split; [exact Hall|].
      cbn [length] in *. lia.
    + exists (LogError "Conversion error: " :: LogError "GetRedisCache "
              :: errors).
      split; [now rewrite <- !app_assoc|]. split.
      * apply Forall_cons_2; [now left|].
        apply Forall_cons_2; [now right | exact Hall].
      * cbn [length] in *. lia.
Qed.

(** X15.  The bulk load accounts for every scanned key: it logs its
    debug line and then, for each key, either forwards one record (and
    logs nothing) or logs two error lines, one in [getResponse] and one
    in [GetRedisCache].  It sends no command and touches neither the
    buffer of requests nor the identifier. *)
Theorem GetRedisCache_accounts (c : Client.t) :
  let c' := GetRedisCache c in
  let keys := redis.Scan (Client.client c) (prefixKey "*") in
  exists records errors,
    Client.CacheChannel c' = Client.CacheChannel c ++ records
    /\ Client.l c' = Client.l c ++ LogDebug "GetRedisCache" :: errors
    /\ Forall (fun e => e = LogError "Conversion error: "
                        \/ e = LogError "GetRedisCache ") errors
    /\ (length errors + 2 * length records = 2 * length keys)%nat
    /\ Client.issued c' = Client.issued c
    /\ Client.sendBuffer c' = Client.sendBuffer c
    /\ Client.id c' = Client.id c.
Proof.
  cbv zeta.
  destruct (GetRedisCache_frame c) as (_ & Hiss & Hid & Hq & _).
  unfold GetRedisCache in *. cbv zeta in *.
  change (Client.client (Client.log (LogDebug "GetRedisCache") c))
    with (Client.client c) in *.
  destruct (GetRedisCache_scan_account
              (redis.Scan (Client.client c) (prefixKey "*"))
              (Client.log (LogDebug "GetRedisCache") c))
    as (errors & Hl & Hall & Hlen).
  change (Client.client (Client.log (LogDebug "GetRedisCache") c))
    with (Client.client c) in Hlen.
  exists (omap (stored_record (Client.client c))
            (redis.Scan (Client.client c) (prefixKey "*"))), errors.
  split; [rewrite GetRedisCache_scan; reflexivity|].
  split; [rewrite Hl; cbn [Client.log Client.l]; now rewrite <- app_assoc|].
  split; [exact Hall|]. split; [exact Hlen|].
  repeat split; assumption.
Qed.

Lemma Forall2_restamp_equiv (t : Z) (rrs' rrs : list dns.RR) :
  Forall2 dns.rr_equiv rrs' rrs ->
  Forall2 rr_same_data (map (dns.set_Ttl t) rrs') rrs.
Proof.
  induction 1 as [|a' a rrs' rrs (Hn & Ht & Hc & _ & Hd) _ IH]; simpl;
    constructor; [|exact IH].
  unfold rr_same_data; simpl. tauto.
Qed.

(** The unpacking of a stored value gives back the answer records that
    were packed, up to the length field of their headers. *)
Hypothesis dns_roundtrip : forall m b,
  Pack m = Some b ->
  exists m', Unpack b = Some m'
             /\ Forall2 dns.rr_equiv (dns.Answer m') (dns.Answer m).

(** X16.  From a publication to a bulk load.  The store holds, under
    the prefixed key, the value and the TTL the outbound branch writes
    for a key and an answer with [uint32] TTLs, and the scan yields
    that store key.  Then the bulk load forwards a record with the
    original key whose answer records are those published, in order,
    with the same name, type, class and data, each with the TTL of the
    stored entry in seconds. *)
Theorem bulk_load_after_publish (c : Client.t) (key : string) (m : dns.Msg)
    (binRes : bytes) :
  Forall (fun a => is_uint32 (dns.ttl_of a)) (dns.Answer m) ->
  Pack (dns.set_Compress true m) = Some binRes ->
  prefixKey key ∈ redis.Scan (Client.client c) (prefixKey "*") ->
  redis.Get (Client.client c) (prefixKey key)
  = Some (String.string_of_list_byte binRes) ->
  redis.TTL (Client.client c) (prefixKey key)
  = Some (getTTL (dns.set_Compress true m)) ->
  exists cm t,
    cm ∈ Client.CacheChannel (GetRedisCache c)
    /\ CacheMessage.Key cm = key
    /\ getTTL m = t * Second
    /\ Forall2 rr_same_data
         (dns.Answer (model.Res (CacheMessage.Response cm))) (dns.Answer m)
    /\ Forall (fun a => dns.ttl_of a = t)
         (dns.Answer (model.Res (CacheMessage.Response cm))).
Proof.
  intros Hwf Hpack Hscan Hget Httl.
  destruct (dns_roundtrip _ _ Hpack) as (m' & Hun & Heq).
  cbn [dns.set_Compress dns.Answer] in Heq.
  pose proof (getTTL_seconds m Hwf) as Hsec.
  assert (Ht : is_uint32 (getTTL_loop 0 (dns.Answer m)))
    by (apply getTTL_loop_uint32; [unfold is_uint32; lia | exact Hwf]).
  unfold is_uint32 in Ht.
  set (t := Z.max 1 (getTTL_loop 0 (dns.Answer m))) in *.
  assert (Hpos : (getTTL m >? 0) = true)
    by (apply Z.gtb_lt; rewrite Hsec; unfold Second; lia).
  eexists _, t. split.
  - unfold GetRedisCache. cbv zeta. rewrite GetRedisCache_scan.
    apply elem_of_app. right. apply list_elem_of_omap.
    exists (prefixKey key). split; [exact Hscan|].
    unfold stored_record. cbn [Client.log Client.client].
    rewrite Hget, Httl, String.list_byte_of_string_of_list_byte, Hun.
    reflexivity.
  - cbn [CacheMessage.Key CacheMessage.Response model.Res].
    rewrite getTTL_set_Compress, Hpos. cbn [dns.set_Answer dns.Answer].
    split; [unfold cleanKey, prefixKey, Sprintf_ss; apply TrimPrefix_app|].
    split; [exact Hsec|]. split.
    + now apply Forall2_restamp_equiv.
    + rewrite Hsec, Seconds_uint32_whole by lia. apply Forall_ttl_restamped.
Qed.

End BulkLoadAccount.

Lemma bulk_load_after_publish_witness :
  let m := sample_msg sample_answer in
  let binRes := enc_rrs sample_answer in
  let c :=
    sample_client
      (store_server
         [("blocky:cache:example.com/A",
           (Some (String.string_of_list_byte binRes), Some (300 * Second)))])
      peer_id in
  Forall (fun a => is_uint32 (dns.ttl_of a)) (dns.Answer m)
  /\ sample_Pack (dns.set_Compress true m) = Some binRes
  /\ prefixKey "example.com/A" ∈ redis.Scan (Client.client c) (prefixKey "*")
  /\ redis.Get (Client.client c) (prefixKey "example.com/A")
     = Some (String.string_of_list_byte binRes)
  /\ redis.TTL (Client.client c) (prefixKey "example.com/A")
     = Some (getTTL (dns.set_Compress true m))
  /\ exists cm t,
      cm ∈ Client.CacheChannel (GetRedisCache (codec := sample_codec) c)
      /\ CacheMessage.Key cm = "example.com/A"
      /\ getTTL m = t * Second
      /\ Forall2 rr_same_data
           (dns.Answer (model.Res (CacheMessage.Response cm))) (dns.Answer m)
      /\ Forall (fun a => dns.ttl_of a = t)
           (dns.Answer (model.Res (CacheMessage.Response cm))).
Proof.
  cbv zeta.
  assert (Hwf : Forall (fun a => is_uint32 (dns.ttl_of a))
                  (dns.Answer (sample_msg sample_answer)))
    by answer_uint32.
  assert (Hscan : prefixKey "example.com/A"
                  ∈ ["blocky:cache:example.com/A" : string])
    by apply list_elem_of_here.
  split; [exact Hwf|]. split; [reflexivity|]. split; [exact Hscan|].
  split; [reflexivity|]. split; [reflexivity|].
  exact (bulk_load_after_publish (codec := sample_codec) sample_Unpack_Pack
           (sample_client
              (store_server
                 [("blocky:cache:example.com/A",
                   (Some (String.string_of_list_byte (enc_rrs sample_answer)),
                    Some (300 * Second)))])
              peer_id)
           "example.com/A" (sample_msg sample_answer) (enc_rrs sample_answer)
           Hwf eq_refl Hscan eq_refl eq_refl).
Defined.

(** ** Construction: [New] and the handshake of [startup] *)

Lemma address_empty (s : string) :
  (String.length s =? 0)%nat = true <-> s = String.EmptyString.
Proof. destruct s; cbn; split; congruence. Qed.

(** X17.  [New] returns a nil client together with a nil error exactly
    when redis is disabled: the configuration is nil or its address is
    empty. *)
Theorem New_disabled (NewClient : redisconn.Options -> redisconn.Server)
    (uuid : Result bytes) (raced : option (option error))
    (cfg : option config.RedisConfig) :
  res (New NewClient uuid raced cfg) = None
  /\ err (New NewClient uuid raced cfg) = None
  <-> cfg = None
      \/ exists cfg0, cfg = Some cfg0
                      /\ config.Address cfg0 = String.EmptyString.
Proof.
  unfold New. destruct cfg as [cfg0|].
  2:{ split; [now left | now split]. }
  destruct (String.length (config.Address cfg0) =? 0)%nat eqn:Ha.
  - apply address_empty in Ha. split; [|now split].
    intros _. right. now exists cfg0.
  - assert (Hne : config.Address cfg0 <> String.EmptyString)
      by (intros He; apply address_empty in He; congruence).
    split.
    + destruct (redisconn.Ping _); [intros [_ [=]]|].
      destruct uuid; [|intros [_ [=]]].
      destruct (startup _ _). intros [[=] _].
    + intros [[=]|(cfg1 & [= <-] & He)]. contradiction.
Qed.

(** X18.  The goroutine of the loop is started exactly when the
    configuration has an address, the broker answers the ping, the
    identifier is generated and the handshake of the subscription to
    ["blocky_sync"] succeeds.  [New] then returns the client it has
    constructed, which talks to the server of the configured options,
    carries the generated identifier and is constructed with nothing
    logged, queued, sent or forwarded; the error it returns is the one
    the goroutine has by then assigned to the shared variable, and nil
    when it has assigned none. *)
Theorem New_started (NewClient : redisconn.Options -> redisconn.Server)
    (uuid : Result bytes) (raced : option (option error))
    (cfg : option config.RedisConfig) :
  let r := New NewClient uuid raced cfg in
  loop r = true <->
  exists cfg0 id,
    let rdb :=
      NewClient
        (redisconn.mkOptions (config.Address cfg0) (config.Password cfg0)
           (config.Database cfg0) (config.ConnectionAttempts cfg0)
           (config.ConnectionCooldown cfg0)) in
    cfg = Some cfg0
    /\ config.Address cfg0 <> String.EmptyString
    /\ redisconn.Ping rdb = None
    /\ uuid = Ok id
    /\ redisconn.Subscribe rdb "blocky_sync" = None
    /\ res r = Some (Client.mk (redisconn.commands rdb) [] [] id [] [])
    /\ err r = match raced with
               | Some e => e
               | None => None
               end.
Proof.
  cbv zeta. unfold New, startup, CacheChannelName. split.
  - destruct cfg as [cfg0|]; [|discriminate].
    destruct (String.length (config.Address cfg0) =? 0)%nat eqn:Ha;
      [discriminate|].
    assert (Hne : config.Address cfg0 <> String.EmptyString)
      by (intros He; apply address_empty in He; congruence).
    destruct (redisconn.Ping _) eqn:Hping; [discriminate|].
    destruct uuid as [id|]; [|discriminate].
    destruct (redisconn.Subscribe _ _) eqn:Hsub; [discriminate|].
    intros _. exists cfg0, id. rewrite Hping, Hsub. repeat split; assumption.
  - intros (cfg0 & id & -> & Hne & Hping & -> & Hsub & _).
    destruct (String.length (config.Address cfg0) =? 0)%nat eqn:Ha;
      [apply address_empty in Ha; contradiction|].
    now rewrite Hping, Hsub.
Qed.

(** X19.  When [New] returns an error.  If the goroutine of the loop
    has been started, the error is one the goroutine itself has
    assigned to the shared variable before [startup] returned.  If it
    has not, a client is returned along with the error exactly when the
    error is that of the handshake of the subscription (the ping had
    succeeded and the identifier had been generated); the errors of the
    ping and of the identifier come with a nil client. *)
Theorem New_error (NewClient : redisconn.Options -> redisconn.Server)
    (uuid : Result bytes) (raced : option (option error))
    (cfg : option config.RedisConfig) (e : error) :
  let r := New NewClient uuid raced cfg in
  err r = Some e ->
  (loop r = true -> raced = Some (Some e))
  /\ (raced = None -> loop r = false)
  /\ (loop r = false ->
      (is_Some (res r) <->
       exists cfg0 id,
         let rdb :=
           NewClient
             (redisconn.mkOptions (config.Address cfg0)
                (config.Password cfg0) (config.Database cfg0)
                (config.ConnectionAttempts cfg0)
                (config.ConnectionCooldown cfg0)) in
         cfg = Some cfg0
         /\ redisconn.Ping rdb = None
         /\ uuid = Ok id
         /\ redisconn.Subscribe rdb "blocky_sync" = Some e)).
Proof.
  cbv zeta. unfold New, startup, CacheChannelName.
  destruct cfg as [cfg0|]; [|discriminate].
  destruct (String.length (config.Address cfg0) =? 0)%nat; [discriminate|].
  destruct (redisconn.Ping _) as [e1|] eqn:Hping.
  { intros [= <-]. split; [discriminate|]. split; [reflexivity|].
    intros _. split.
    - intros [? [=]].
    - intros (cfg1 & id & [= <-] & Hp & _). cbv zeta in Hp. congruence. }
  destruct uuid as [id|e2].
  2:{ intros [= <-]. split; [discriminate|]. split; [reflexivity|].
      intros _. split.
      - intros [? [=]].
      - intros (cfg1 & id & _ & _ & [=] & _). }
  destruct (redisconn.Subscribe _ _) as [e3|] eqn:Hsub.
  - intros [= <-]. split; [discriminate|]. split; [reflexivity|].
    intros _. split.
    + intros _. exists cfg0, id. cbv zeta. now rewrite Hping, Hsub.
    + intros _. eauto.
  - cbn [err loop]. intros He. split; [|split].
    + intros _. destruct raced as [v|]; [now subst v | discriminate].
    + intros ->. discriminate.
    + discriminate.
Qed.

Lemma New_error_witness :
  let r :=
    New (sample_conn None (Some "subscribe: connection refused"))
      (Ok sample_id) None (Some sample_config) in
  let r' :=
    New (sample_conn (Some "dial tcp: connection refused") None)
      (Ok sample_id) None (Some sample_config) in
  let r'' :=
    New (sample_conn None None) (Ok sample_id)
      (Some (Some "invalid character")) (Some sample_config) in
  err r = Some "subscribe: connection refused"
  /\ loop r = false
  /\ is_Some (res r)
  /\ err r' = Some "dial tcp: connection refused"
  /\ loop r' = false
  /\ res r' = None
  /\ err r'' = Some "invalid character"
  /\ loop r'' = true.
Proof.
  cbv zeta.
  destruct (New_error (sample_conn None (Some "subscribe: connection refused"))
              (Ok sample_id) None (Some sample_config)
              "subscribe: connection refused" eq_refl) as (_ & Hloop & Hres).
  destruct (New_error (sample_conn (Some "dial tcp: connection refused") None)
              (Ok sample_id) None (Some sample_config)
              "dial tcp: connection refused" eq_refl) as (_ & Hloop' & _).
  split; [reflexivity|]. split; [exact (Hloop eq_refl)|]. split.
  - apply (Hres (Hloop eq_refl)). exists sample_config, sample_id. cbv zeta.
    repeat split; reflexivity.
  - split; [reflexivity|]. split; [exact (Hloop' eq_refl)|].
    split; [reflexivity|]. split; reflexivity.
Defined.
